(** * otel-example-go: telemetry set-up, the package server and its client

    A shallow embedding of the Go sources

      - [commons/telemetry] ([otel.go] as listed in the README, [jaeger.go]),
      - [app1/main.go] (the HTTP server),
      - [app2/main.go] (the HTTP client),

    together with a model of the propagation and span-recording core that the
    specification describes and that the repository obtains from the
    OpenTelemetry SDK. *)

From Stdlib Require Import Ascii QArith.QArith_base.
From stdpp Require Import base option list gmap strings.

(** ** The Go runtime, as far as the sources use it *)

(** A Go [error] value is modelled by its message; [nil] is [None]. *)
Definition error := string.

(** How a piece of Go code that runs on a state [S] can finish: it returns a
    value, the process is ended by [log.Fatalf] (the line is logged, then
    [os.Exit(1)]; no deferred function runs), or it panics with the given
    value, and the deferred functions of the callers run on the state reached
    so far. *)
Inductive Outcome (S A : Type) : Type :=
| Returned (a : A) (s : S)
| Exited (logline : string)
| Panicked (err : error) (s : S).
Arguments Returned {S A} a s.
Arguments Exited {S A} logline.
Arguments Panicked {S A} err s.

Definition is_Returned {S A} (o : Outcome S A) : Prop :=
  match o with Returned _ _ => True | _ => False end.

Definition is_Exited {S A} (o : Outcome S A) : Prop :=
  match o with Exited _ => True | _ => False end.

Definition is_Panicked {S A} (o : Outcome S A) : Prop :=
  match o with Panicked _ _ => True | _ => False end.

Definition Proc (S A : Type) : Type := S → Outcome S A.

Global Instance Proc_ret {S} : MRet (Proc S) := fun A a s => Returned a s.

Global Instance Proc_bind {S} : MBind (Proc S) := fun A B k m s =>
  match m s with
  | Returned a s' => k a s'
  | Exited l => Exited l
  | Panicked e s' => Panicked e s'
  end.

Definition modify {S} (f : S → S) : Proc S unit :=
  fun s => Returned tt (f s).

Definition call {S A} (f : S → A * S) : Proc S A :=
  fun s => Returned (f s).1 (f s).2.

Definition Fatalf {S A} (logline : string) : Proc S A :=
  fun _ => Exited logline.

Definition panic {S A} (err : error) : Proc S A :=
  fun s => Panicked err s.

(** [defer cleanup; body]: [cleanup] runs when [body] returns and when it
    panics, not when the process exits. A panic of [body] goes on after
    [cleanup] has returned. *)
Definition defer {S A} (cleanup : Proc S unit) (body : Proc S A) : Proc S A :=
  fun s =>
    match body s with
    | Returned a s' =>
        match cleanup s' with
        | Returned _ s'' => Returned a s''
        | Exited l => Exited l
        | Panicked e s'' => Panicked e s''
        end
    | Exited l => Exited l
    | Panicked e s' =>
        match cleanup s' with
        | Returned _ s'' => Panicked e s''
        | Exited l => Exited l
        | Panicked e' s'' => Panicked e' s''
        end
    end.

(** [fmt.Sprintf("%s: %v", message, err)]. *)
Definition Sprintf_msg_err (message : string) (err : error) : string :=
  message +:+ ": " +:+ err.

(** The process environment: [os.Getenv] yields the empty string for an unset
    variable, [os.LookupEnv] tells the two apart. *)
Definition Environ := gmap string string.

Definition Getenv (env : Environ) (key : string) : string :=
  default "" (env !! key).

Definition LookupEnv (env : Environ) (key : string) : option string :=
  env !! key.

(** ** Samplers and propagators handed to the SDK *)

(** The sampler constructors of [sdktrace] that the sources call. The fraction
    of [TraceIDRatioBased] is the float64 literal of the source; [0.5] is
    exactly [1/2]. *)
Inductive Sampler : Type :=
| AlwaysSample
| NeverSample
| TraceIDRatioBased (fraction : Q)
| ParentBased (root : Sampler).

Inductive Propagator : Type :=
| TraceContext
| Baggage.

Definition KeyValue : Type := string * string.

(** What the SDK constructors were given. *)
Record Resource := {
  res_attributes : list KeyValue
}.

Record TracerProvider := {
  tp_sampler : Sampler;
  tp_resource : Resource;
  tp_endpoint : string
}.

Record MeterProvider := {
  mp_resource : Resource;
  mp_endpoint : string;
  mp_interval_seconds : nat
}.

(** The process-wide state that the [otel] package keeps, and the errors that
    were passed to [otel.Handle]. *)
Record Globals := {
  g_meterProvider : option MeterProvider;
  g_textMapPropagator : list Propagator;
  g_tracerProvider : option TracerProvider;
  g_handled : list error
}.

Definition initial_globals : Globals :=
  {| g_meterProvider := None; g_textMapPropagator := [];
     g_tracerProvider := None; g_handled := [] |}.

Definition SetMeterProvider (mp : MeterProvider) (g : Globals) : Globals :=
  {| g_meterProvider := Some mp; g_textMapPropagator := g_textMapPropagator g;
     g_tracerProvider := g_tracerProvider g; g_handled := g_handled g |}.

Definition SetTextMapPropagator (ps : list Propagator) (g : Globals)
  : Globals :=
  {| g_meterProvider := g_meterProvider g; g_textMapPropagator := ps;
     g_tracerProvider := g_tracerProvider g; g_handled := g_handled g |}.

Definition SetTracerProvider (tp : TracerProvider) (g : Globals) : Globals :=
  {| g_meterProvider := g_meterProvider g;
     g_textMapPropagator := g_textMapPropagator g;
     g_tracerProvider := Some tp; g_handled := g_handled g |}.

Definition Handle (err : error) (g : Globals) : Globals :=
  {| g_meterProvider := g_meterProvider g;
     g_textMapPropagator := g_textMapPropagator g;
     g_tracerProvider := g_tracerProvider g;
     g_handled := g_handled g ++ [err] |}.

(** The results of the SDK calls that can fail. They are inputs of the model:
    each field is the [error] result of one call, [None] for [nil]. *)
Record SdkResults := {
  resource_New_err : option error;
  otlpmetricgrpc_New_err : option error;
  otlptrace_New_err : option error;
  jaeger_New_err : option error;
  traceExp_Shutdown_err : option error;
  meterProvider_Shutdown_err : option error;
  tp_Shutdown_err : option error
}.

Definition sdk_all_ok : SdkResults :=
  {| resource_New_err := None; otlpmetricgrpc_New_err := None;
     otlptrace_New_err := None; jaeger_New_err := None;
     traceExp_Shutdown_err := None; meterProvider_Shutdown_err := None;
     tp_Shutdown_err := None |}.

(** ** Package [telemetry]

    [otel.go] is taken from its listing, where the two helpers are
    [handleErr] and [getSampler]; [jaeger.go] and the client call them by
    their exported names [HandleErr] and [GetSampler]. *)

Module Telemetry.

(** [handleErr]: [log.Fatalf("%s: %v", message, err)] when [err != nil]. *)
Definition handleErr (err : option error) (message : string)
  : Proc Globals unit :=
  match err with
  | Some e => Fatalf (Sprintf_msg_err message e)
  | None => mret tt
  end.

(** [getSampler], reading [GO_ENV] from the environment. *)
Definition getSampler (env : Environ) : Sampler :=
  let ENV := Getenv env "GO_ENV" in
  if String.eqb ENV "development" then AlwaysSample
  else if String.eqb ENV "production" then
    ParentBased (TraceIDRatioBased (1 # 2))
  else AlwaysSample.

(** The attributes given to [resource.New]: the service name and the
    environment. *)
Definition resource_attributes (env : Environ) (serviceName : string)
  : list KeyValue :=
  [("service.name", serviceName); ("environment", Getenv env "GO_ENV")].

(** The closure that [InitProvider] returns. *)
Definition InitProvider_shutdown (sdk : SdkResults) : Proc Globals unit :=
  match traceExp_Shutdown_err sdk with
  | Some err => modify (Handle err)
  | None => mret tt
  end ;;
  match meterProvider_Shutdown_err sdk with
  | Some err => modify (Handle err)
  | None => mret tt
  end.

(** [InitProvider] of [otel.go]. *)
Definition InitProvider (env : Environ) (sdk : SdkResults)
    (serverName : string) : Proc Globals (Proc Globals unit) :=
  let res := {| res_attributes := resource_attributes env serverName |} in
  handleErr (resource_New_err sdk) "failed to create resource" ;;
  let otelAgentAddr :=
    match LookupEnv env "OTEL_EXPORTER_OTLP_ENDPOINT" with
    | Some a => a
    | None => "0.0.0.0:4317"
    end in
  handleErr (otlpmetricgrpc_New_err sdk)
    "Failed to create the collector metric exporter" ;;
  let meterProvider :=
    {| mp_resource := res; mp_endpoint := otelAgentAddr;
       mp_interval_seconds := 2 |} in
  modify (SetMeterProvider meterProvider) ;;
  handleErr (otlptrace_New_err sdk)
    "Failed to create the collector trace exporter" ;;
  let tracerProvider :=
    {| tp_sampler := getSampler env; tp_resource := res;
       tp_endpoint := otelAgentAddr |} in
  modify (SetTextMapPropagator [TraceContext; Baggage]) ;;
  modify (SetTracerProvider tracerProvider) ;;
  mret (InitProvider_shutdown sdk).

(** [newResource] of [jaeger.go]. *)
Definition newResource (env : Environ) (sdk : SdkResults)
  : Proc Globals Resource :=
  match resource_New_err sdk with
  | Some err => Fatalf (Sprintf_msg_err "Failed to create resource" err)
  | None =>
      mret {| res_attributes :=
               resource_attributes env (Getenv env "SERVICE_NAME") |}
  end.

(** [exporterToJaeger]: the endpoint on success, the error otherwise. *)
Definition exporterToJaeger (env : Environ) (sdk : SdkResults)
  : string + error :=
  match jaeger_New_err sdk with
  | Some err => inr err
  | None => inl (Getenv env "OPEN_TELEMETRY_COLLECTOR_URL")
  end.

(** [InitProviderWithJaegerExporter]; the function it returns is
    [tp.Shutdown], whose result is its error. *)
Definition InitProviderWithJaegerExporter (env : Environ) (sdk : SdkResults)
  : Proc Globals (option error) :=
  match exporterToJaeger env sdk with
  | inr err => Fatalf ("error: " +:+ err)
  | inl endpoint =>
      let sampler := getSampler env in
      res ← newResource env sdk;
      modify (SetTracerProvider
                {| tp_sampler := sampler; tp_resource := res;
                   tp_endpoint := endpoint |}) ;;
      mret (tp_Shutdown_err sdk)
  end.

End Telemetry.

(** ** The tracing API the applications are written against *)

(** A span is used through the [trace.Span] interface; a value of that
    interface is modelled by a handle. A [context.Context] carries the current
    span and the baggage. *)
Definition Span := nat.

Record Context := {
  ctx_span : Span;
  ctx_baggage : gmap string string
}.

(** [baggage.Member(key).Value()]: the empty string when there is no such
    member. *)
Definition Member_Value (bag : gmap string string) (key : string) : string :=
  default "" (bag !! key).

(** The methods of [trace.Tracer] and [trace.Span] that the sources call, on an
    implementation with state [T]. None of them returns an error. *)
Class Tracing (T : Type) := {
  tracer_Start : Context → string → list KeyValue → T → (Context * Span) * T;
  span_AddEvent : Span → string → list KeyValue → T → T;
  span_RecordError : Span → error → T → T;
  span_End : Span → T → T
}.

(** An implementation that only keeps the calls made, in order. *)
Inductive Call : Type :=
| CallStart (parent : Span) (name : string) (attrs : list KeyValue)
    (span : Span)
| CallAddEvent (span : Span) (name : string) (attrs : list KeyValue)
| CallRecordError (span : Span) (err : error)
| CallEnd (span : Span).

Global Instance Call_eq_dec : EqDecision Call.
Proof. solve_decision. Defined.

Record Recorder := {
  rec_calls : list Call;
  rec_next : Span
}.

Definition record (c : Call) (r : Recorder) : Recorder :=
  {| rec_calls := rec_calls r ++ [c]; rec_next := rec_next r |}.

Global Instance Recorder_Tracing : Tracing Recorder := {|
  tracer_Start ctx name attrs r :=
    let span := rec_next r in
    (({| ctx_span := span; ctx_baggage := ctx_baggage ctx |}, span),
     {| rec_calls := rec_calls r ++ [CallStart (ctx_span ctx) name attrs span];
        rec_next := S span |});
  span_AddEvent span name attrs := record (CallAddEvent span name attrs);
  span_RecordError span err := record (CallRecordError span err);
  span_End span := record (CallEnd span)
|}.

(** The span that a context without a span yields ([context.Background()]):
    handle [0]; the handles that [Start] returns begin at [1]. *)
Definition noop_span : Span := 0.

Definition initial_recorder : Recorder := {| rec_calls := []; rec_next := 1 |}.

(** ** [net/http] as far as the handler uses it *)

(** A response writer: the status sent, if any, and the chunks written. The
    first [Write] without a preceding [WriteHeader] sends status 200. *)
Record ResponseWriter := {
  rw_status : option nat;
  rw_writes : list string
}.

Definition new_response : ResponseWriter :=
  {| rw_status := None; rw_writes := [] |}.

Definition Write (b : string) (w : ResponseWriter) : ResponseWriter :=
  {| rw_status := Some (default 200 (rw_status w));
     rw_writes := rw_writes w ++ [b] |}.

Record Request := {
  req_method : string;
  req_vars : gmap string string;
  req_ctx : Context
}.

Definition newline : string := String (Ascii.ascii_of_nat 10) "".

(** [w.WriteHeader(code)]: the status is sent unless one was sent before.
    Response headers are not part of the model. *)
Definition WriteHeader (code : nat) (w : ResponseWriter) : ResponseWriter :=
  {| rw_status := Some (default code (rw_status w));
     rw_writes := rw_writes w |}.

(** What the router answers when no route matches ([http.NotFound]). *)
Definition NotFound (w : ResponseWriter) : ResponseWriter :=
  {| rw_status := Some 404;
     rw_writes := rw_writes w ++ ["404 page not found" +:+ newline] |}.

(** ** Delimited strings *)

(** Whether the character [c] occurs in [s]. *)
Fixpoint contains (c : ascii) (s : string) : bool :=
  match s with
  | EmptyString => false
  | String a s' => Ascii.eqb a c || contains c s'
  end.

(** The pieces of [s] between the occurrences of [sep]; never the empty
    list. *)
Fixpoint split_on (sep : ascii) (s : string) : list string :=
  match s with
  | EmptyString => [EmptyString]
  | String c s' =>
      if Ascii.eqb c sep then EmptyString :: split_on sep s'
      else
        match split_on sep s' with
        | [] => [String c EmptyString]
        | w :: ws => String c w :: ws
        end
  end.

(** [s] cut at the first occurrence of [sep]. *)
Fixpoint split_first (sep : ascii) (s : string) : option (string * string) :=
  match s with
  | EmptyString => None
  | String c s' =>
      if Ascii.eqb c sep then Some (EmptyString, s')
      else
        match split_first sep s' with
        | Some (k, v) => Some (String c k, v)
        | None => None
        end
  end.

(** The strings of [l] with [sep] between them. *)
Fixpoint join (sep : ascii) (l : list string) : string :=
  match l with
  | [] => EmptyString
  | [x] => x
  | x :: l' => x +:+ String sep (join sep l')
  end.

(** ** [app1]: the package server *)

Module App1.

Definition serverName : string := "otel-example-server".

(** The span name formatter given to the [otelmux] middleware:
    [fmt.Sprintf("%s %s", r.Method, routeName)]. *)
Definition spanNameFormatter (routeName method : string) : string :=
  method +:+ " " +:+ routeName.

(** [main] up to the construction of the router: the telemetry set-up. *)
Definition main_init (env : Environ) (sdk : SdkResults)
  : Proc Globals (Proc Globals unit) :=
  Telemetry.InitProvider env sdk serverName.

(** [fmt.Sprintf("package is %s (id %s)\n", pr, id)]. *)
Definition Sprintf_reply (pr id : string) : string :=
  "package is " +:+ pr +:+ " (id " +:+ id +:+ ")" +:+ newline.

(** The route ["/packages/{id:[0-9]+}"]: the path has to be ["/packages/"]
    followed by one or more decimal digits, which are the variable [id]. *)
Definition is_digit (c : ascii) : bool :=
  (48 <=? nat_of_ascii c)%nat && (nat_of_ascii c <=? 57)%nat.

Fixpoint all_digits (s : string) : bool :=
  match s with
  | EmptyString => true
  | String c s' => is_digit c && all_digits s'
  end.

Fixpoint strip_prefix (p s : string) : option string :=
  match p, s with
  | EmptyString, _ => Some s
  | String a p', String b s' =>
      if Ascii.eqb a b then strip_prefix p' s' else None
  | String _ _, EmptyString => None
  end.

(** The canonical form of a path, as [mux.NewRouter()] computes it before
    it tries the routes ([cleanPath], over [path.Clean] of a rooted path):
    empty and ["."] elements are dropped, a [".."] element drops the element
    before it, if any, and a trailing slash is kept. [clean_element] works
    on the elements seen so far, the last one first. *)
Definition clean_element (seen : list string) (e : string) : list string :=
  if String.eqb e "" || String.eqb e "." then seen
  else if String.eqb e ".." then tail seen
  else e :: seen.

Definition path_Clean (p : string) : string :=
  String "/" (join "/" (reverse (foldl clean_element [] (split_on "/" p)))).

Fixpoint ends_with (c : ascii) (s : string) : bool :=
  match s with
  | EmptyString => false
  | String a EmptyString => Ascii.eqb a c
  | String _ s' => ends_with c s'
  end.

Definition cleanPath (p : string) : string :=
  match p with
  | EmptyString => "/"
  | String a _ =>
      let p := if Ascii.eqb a "/" then p else String "/" p in
      let np := path_Clean p in
      if ends_with "/" p && negb (String.eqb np "/") then np +:+ "/"
      else np
  end.

Definition route_packages (path : string) : option string :=
  match strip_prefix "/packages/" path with
  | Some id =>
      if negb (String.eqb id "") && all_digits id then Some id else None
  | None => None
  end.

Section Handlers.
Context {T : Type} `{Tracing T}.

(** [getPackage]. *)
Definition getPackage (ctx : Context) (id : string) : Proc T string :=
  '(_, span) ← call (tracer_Start ctx "getPackage" []);
  defer (modify (span_End span)) (
    modify (span_AddEvent span "getPackage" [("package", id)]);;
    if String.eqb id "123" then
      modify (span_AddEvent span "found package" []);;
      mret "found package"
    else
      modify (span_RecordError span "package not found");;
      mret "unknown").

(** The handler registered for ["/packages/{id:[0-9]+}"]. The response
    writer is passed through; [w.Write] and its ignored results are
    [Write]. *)
Definition packagesHandler (w : ResponseWriter) (r : Request)
  : Proc T ResponseWriter :=
  let vars := req_vars r in
  let id := default "" (vars !! "id") in
  pr ← getPackage (req_ctx r) id;
  let baggage := ctx_baggage (req_ctx r) in
  let span := ctx_span (req_ctx r) in
  let destination := Member_Value baggage "destination" in
  let transportation := Member_Value baggage "transportation" in
  modify (span_AddEvent span "Obtaining package"
            [("destination", destination);
             ("transportation", transportation)]);;
  let reply := Sprintf_reply pr id in
  mret (Write reply w).

(** The router of [mux.NewRouter()] with the one route: a request whose path
    is not in canonical form is answered with a redirect to that form, 301
    without a body, before any route is tried; otherwise the handler runs if
    the path matches the route, with the matched [id] among the route
    variables, and the request is answered by [http.NotFound] if not.
    [path] is the decoded path of the request. *)
Definition router (w : ResponseWriter) (method path : string)
    (ctx : Context) : Proc T ResponseWriter :=
  if negb (String.eqb (cleanPath path) path) then mret (WriteHeader 301 w)
  else
    match route_packages path with
    | Some id =>
        packagesHandler w
          {| req_method := method; req_vars := {[ "id" := id ]};
             req_ctx := ctx |}
    | None => mret (NotFound w)
    end.

End Handlers.

End App1.

(** ** [app2]: the client *)

Module App2.

Definition serverName : string := "otel-example-client".

(** The results of the HTTP calls of the client: the error of
    [client.Do], the body of the response, the error of [io.ReadAll]. The
    transport that [main] gives the client makes tracing calls of its own
    during [client.Do]; they are not calls of [main] and are not part of
    this model, in which the tracing state holds the calls of [main]. *)
Record HttpResults := {
  client_Do_err : option error;
  response_body : string;
  ReadAll_err : option error
}.

(** [initTracer]. The error of [resource.New] is dropped ([res, _ :=]); the
    second result is always [nil]. *)
Definition initTracer (env : Environ) (sdk : SdkResults)
  : Proc Globals (TracerProvider * option error) :=
  let res :=
    {| res_attributes := Telemetry.resource_attributes env serverName |} in
  let otelAgentAddr :=
    match LookupEnv env "OTEL_EXPORTER_OTLP_ENDPOINT" with
    | Some a => a
    | None => "0.0.0.0:4317"
    end in
  Telemetry.handleErr (otlptrace_New_err sdk)
    "Failed to create the collector trace exporter";;
  let tracerProvider :=
    {| tp_sampler := Telemetry.getSampler env; tp_resource := res;
       tp_endpoint := otelAgentAddr |} in
  modify (SetTextMapPropagator [TraceContext; Baggage]);;
  modify (SetTracerProvider tracerProvider);;
  mret (tracerProvider, None).

(** The state of the client process. *)
Record State (T : Type) := {
  st_globals : Globals;
  st_tracing : T;
  st_stdout : list string
}.
Arguments st_globals {T} _.
Arguments st_tracing {T} _.
Arguments st_stdout {T} _.

Section Main.
Context {T : Type} `{Tracing T}.

Definition on_globals {A} (m : Proc Globals A) : Proc (State T) A :=
  fun s =>
    match m (st_globals s) with
    | Returned a g =>
        Returned a {| st_globals := g; st_tracing := st_tracing s;
                      st_stdout := st_stdout s |}
    | Exited l => Exited l
    | Panicked e g =>
        Panicked e {| st_globals := g; st_tracing := st_tracing s;
                      st_stdout := st_stdout s |}
    end.

Definition on_tracing {A} (f : T → A * T) : Proc (State T) A :=
  fun s =>
    Returned (f (st_tracing s)).1
      {| st_globals := st_globals s; st_tracing := (f (st_tracing s)).2;
         st_stdout := st_stdout s |}.

Definition Printf (line : string) : Proc (State T) unit :=
  modify (fun s =>
    {| st_globals := st_globals s; st_tracing := st_tracing s;
       st_stdout := st_stdout s ++ [line] |}).

(** The function literal of [main] that sends the request; it returns
    the body read and the error. *)
Definition request (http : HttpResults) (ctx : Context)
  : Proc (State T) (string * option error) :=
  '(ctx, span) ← on_tracing
    (tracer_Start ctx "Otel propagation example: sending package from boston"
       [("peer.service", "otel-example-server")]);
  defer (on_tracing (fun t => (tt, span_End span t))) (
    on_tracing (fun t => (tt, span_AddEvent span "Sending request..." [] t));;
    match client_Do_err http with
    | Some err => panic err
    | None =>
        let body := response_body http in
        let err := ReadAll_err http in
        on_tracing (fun t => (tt, span_AddEvent span "Request received" [] t));;
        mret (body, err)
    end).

(** [main]. [bag] is the result of [baggage.Parse] on
    ["destination=newyork,transportation=truck"]. *)
Definition main (env : Environ) (sdk : SdkResults) (http : HttpResults)
    (bag : gmap string string) : Proc (State T) unit :=
  '(tp, err) ← on_globals (initTracer env sdk);
  match err with Some e => Fatalf e | None => mret tt end;;
  defer (match tp_Shutdown_err sdk with
         | Some err =>
             on_globals (Telemetry.handleErr (Some err)
                           "Error shutting down tracer provider")
         | None => mret tt
         end) (
    let ctx := {| ctx_span := noop_span; ctx_baggage := bag |} in
    '(body, err) ← request http ctx;
    match err with
    | Some e =>
        on_globals (Telemetry.handleErr (Some e)
                      "Error executing handler request")
    | None => mret tt
    end;;
    Printf ("Response Received: " +:+ body +:+ newline +:+ newline
              +:+ newline);;
    Printf ("Waiting for few seconds to export spans ..." +:+ newline
              +:+ newline);;
    Printf ("Inspect traces on jaeger" +:+ newline)).

End Main.

End App2.

(** ** [app1]: [runServer] and [main] *)

Module App1Main.

(** The state of the server process as its main goroutine sees it: the
    globals of [otel] and the lines this goroutine has logged. *)
Record State := {
  st_globals : Globals;
  st_log : list string
}.

Definition on_globals {A} (m : Proc Globals A) : Proc State A :=
  fun s =>
    match m (st_globals s) with
    | Returned a g => Returned a {| st_globals := g; st_log := st_log s |}
    | Exited l => Exited l
    | Panicked e g => Panicked e {| st_globals := g; st_log := st_log s |}
    end.

(** [log.Println] and [log.Printf], without the time stamp. *)
Definition Println (line : string) : Proc State unit :=
  modify (fun s =>
    {| st_globals := st_globals s; st_log := st_log s ++ [line] |}).

(** [runServer], from the arrival of the interrupt signal on; [shutdown_err]
    is the result of [server.Shutdown]. The goroutine that it starts before
    shares nothing with it: the error of [ListenAndServe] is only logged
    there and nobody waits for it. *)
Definition runServer (shutdown_err : option error)
  : Proc State (option error) :=
  Println "Shutting down server...";;
  match shutdown_err with
  | Some err =>
      Println ("Server shutdown error: " +:+ err);;
      mret (Some err)
  | None =>
      Println "Server shut down.";;
      mret None
  end.

(** [main]: the set-up of the telemetry, whose shutdown function is deferred,
    and the run of the server. *)
Definition main (env : Environ) (sdk : SdkResults)
    (shutdown_err : option error) : Proc State unit :=
  otelShutdown ← on_globals (Telemetry.InitProvider env sdk App1.serverName);
  defer (on_globals otelShutdown) (
    err ← runServer shutdown_err;
    match err with
    | Some e => Fatalf ("Failed to start server: " +:+ e)
    | None => mret tt
    end).

End App1Main.

(** ** Reading a list of recorded calls *)

(** The span a call is made on; for [Start], the span it returns. *)
Definition call_span (c : Call) : Span :=
  match c with
  | CallStart _ _ _ s => s
  | CallAddEvent s _ _ => s
  | CallRecordError s _ => s
  | CallEnd s => s
  end.

Definition started_spans (cs : list Call) : list Span :=
  omap (fun c => match c with CallStart _ _ _ s => Some s | _ => None end) cs.

Definition ended_spans (cs : list Call) : list Span :=
  omap (fun c => match c with CallEnd s => Some s | _ => None end) cs.

Definition calls_on (span : Span) (cs : list Call) : list Call :=
  filter (fun c => call_span c = span) cs.

(** ** The propagation and span-recording core

    The sources delegate propagation, sampling, span recording and export to
    the OpenTelemetry SDK, whose code is not part of the repository. The
    definitions of the following modules are modelled from the specification
    of that core. *)

Module Propagation.

(** Modelled from the spec: the Context Carrier of section 3,
    [{trace_id, span_id, baggage, sampled}]. Identifiers are the tokens of
    the header format; a carrier without a span has the empty [span_id]. *)
Record Carrier := {
  trace_id : string;
  span_id : string;
  baggage : gmap string string;
  sampled : bool
}.


(** Modelled from the spec: the parser of that field for [extract] of section
    4.1; anything but four hyphen-separated tokens with version [00],
    non-empty identifiers and a flag [00] or [01] is malformed. *)
Definition parse_traceparent (v : string) : option (string * string * bool) :=
  match split_on "-" v with
  | [version; t; s; flag] =>
      if String.eqb version "00" && negb (String.eqb t "")
         && negb (String.eqb s "")
      then
        if String.eqb flag "01" then Some (t, s, true)
        else if String.eqb flag "00" then Some (t, s, false)
        else None
      else None
  | _ => None
  end.



(** Modelled from the spec: the parser of a member, which is cut at its
    first [=]; a member without [=] or with an empty key is malformed. *)
Definition parse_member (item : string) : option (string * string) :=
  match split_first "=" item with
  | Some (k, v) => if String.eqb k "" then None else Some (k, v)
  | None => None
  end.

(** Modelled from the spec: a key of the baggage is set or overwritten, as by
    [with_baggage] of section 4.1. *)
Definition set_member (bag : gmap string string) (kv : string * string)
  : gmap string string :=
  <[kv.1 := kv.2]> bag.

(** Modelled from the spec: the parser of the baggage field. The empty field
    is the empty baggage; a key given twice keeps the later value. *)
Definition parse_baggage (v : string) : option (gmap string string) :=
  if String.eqb v "" then Some ∅
  else
    match mapM parse_member (split_on "," v) with
    | Some members => Some (foldl set_member ∅ members)
    | None => None
    end.

(** Modelled from the spec: [extract] of section 4.1, which yields no carrier
    on malformed input. A missing baggage field is the empty baggage. *)
Definition extract (headers : gmap string string) : option Carrier :=
  match headers !! "traceparent" with
  | None => None
  | Some tp =>
      match parse_traceparent tp with
      | None => None
      | Some (t, s, flag) =>
          match
            match headers !! "baggage" with
            | None => Some ∅
            | Some v => parse_baggage v
            end
          with
          | None => None
          | Some bag =>
              Some {| trace_id := t; span_id := s; baggage := bag;
                      sampled := flag |}
          end
      end
  end.









End Propagation.

Module Sampling.

Section Decide.

(** Modelled from the spec: the decision of the [ratio(p)] policy of section
    4.4. The specification fixes that it is a function of the ratio and of the
    trace id, not how it is derived from them. *)
Variable ratio_decision : Q → string → bool.

(** Modelled from the spec: [decide] of section 4.4. [parent] is the carrier
    that the request came with, if any; only [parent_based] looks at it. *)
Fixpoint decide (policy : Sampler) (parent : option Propagation.Carrier)
    (trace_id : string) : bool :=
  match policy with
  | AlwaysSample => true
  | NeverSample => false
  | TraceIDRatioBased p => ratio_decision p trace_id
  | ParentBased inner =>
      match parent with
      | Some c => Propagation.sampled c
      | None => decide inner None trace_id
      end
  end.

End Decide.

End Sampling.

Module Spans.

(** Modelled from the spec: the status of a span of section 3,
    [{unset, ok, error(message)}]. *)
Inductive Status : Type :=
| Unset
| Ok
| Error (message : string).

(** Modelled from the spec: an event of a span of section 3,
    [{name, timestamp, attributes}]. Times are readings of the clock. *)
Record Event := {
  ev_name : string;
  ev_timestamp : nat;
  ev_attributes : list KeyValue
}.

(** Modelled from the spec: the Span Record of section 3. A record without
    [sr_end_time] is open, one without [sr_parent_span_id] is a trace root. *)
Record SpanRecord := {
  sr_trace_id : string;
  sr_span_id : string;
  sr_parent_span_id : option string;
  sr_name : string;
  sr_start_time : nat;
  sr_end_time : option nat;
  sr_attributes : list KeyValue;
  sr_events : list Event;
  sr_status : Status
}.

Global Instance Status_eq_dec : EqDecision Status.
Proof. solve_decision. Defined.
Global Instance Event_eq_dec : EqDecision Event.
Proof. solve_decision. Defined.
Global Instance SpanRecord_eq_dec : EqDecision SpanRecord.
Proof. solve_decision. Defined.

(** Modelled from the spec: the state of a span of section 4.2, open until
    [end_time] is stamped. *)
Definition is_open (r : SpanRecord) : bool :=
  match sr_end_time r with None => true | Some _ => false end.

(** The record [r] with one field replaced. *)
Definition with_end_time (e : nat) (r : SpanRecord) : SpanRecord :=
  {| sr_trace_id := sr_trace_id r; sr_span_id := sr_span_id r;
     sr_parent_span_id := sr_parent_span_id r; sr_name := sr_name r;
     sr_start_time := sr_start_time r; sr_end_time := Some e;
     sr_attributes := sr_attributes r; sr_events := sr_events r;
     sr_status := sr_status r |}.

Definition with_event (ev : Event) (r : SpanRecord) : SpanRecord :=
  {| sr_trace_id := sr_trace_id r; sr_span_id := sr_span_id r;
     sr_parent_span_id := sr_parent_span_id r; sr_name := sr_name r;
     sr_start_time := sr_start_time r; sr_end_time := sr_end_time r;
     sr_attributes := sr_attributes r; sr_events := sr_events r ++ [ev];
     sr_status := sr_status r |}.

Definition with_status (st : Status) (r : SpanRecord) : SpanRecord :=
  {| sr_trace_id := sr_trace_id r; sr_span_id := sr_span_id r;
     sr_parent_span_id := sr_parent_span_id r; sr_name := sr_name r;
     sr_start_time := sr_start_time r; sr_end_time := sr_end_time r;
     sr_attributes := sr_attributes r; sr_events := sr_events r;
     sr_status := st |}.

(** Modelled from the spec: the tracer of section 4.2 with the Span Tree
    Accumulator of section 4.3. [now] is the clock, [spans] holds a record
    per span handle (a handle is the position of its record), [submitted]
    is what the accumulator has received, in order. *)
Record Tracer := {
  now : nat;
  spans : list SpanRecord;
  submitted : list SpanRecord
}.

(** Modelled from the spec: a tracer without spans, its clock at [t0]. *)
Definition new_tracer (t0 : nat) : Tracer :=
  {| now := t0; spans := []; submitted := [] |}.

(** Modelled from the spec: time passes; the clock that stamps the spans
    does not go back. *)
Definition tick (d : nat) (tr : Tracer) : Tracer :=
  {| now := now tr + d; spans := spans tr; submitted := submitted tr |}.

Section StartSpan.

Variable ratio_decision : Q → string → bool.
Variable policy : Sampler.

(** Modelled from the spec: [start_span] of section 4.2. The identifiers
    drawn for the new span are arguments. A carrier without a span id makes
    the span a root, with the fresh trace id and the sampling decision taken
    here; otherwise trace id and decision are inherited. *)
Definition start_span (fresh_trace_id fresh_span_id : string)
    (carrier : Propagation.Carrier) (name : string) (tr : Tracer)
  : (Propagation.Carrier * nat) * Tracer :=
  let root := String.eqb (Propagation.span_id carrier) "" in
  let trace :=
    if root then fresh_trace_id else Propagation.trace_id carrier in
  let r :=
    {| sr_trace_id := trace; sr_span_id := fresh_span_id;
       sr_parent_span_id :=
         if root then None else Some (Propagation.span_id carrier);
       sr_name := name; sr_start_time := now tr; sr_end_time := None;
       sr_attributes := []; sr_events := []; sr_status := Unset |} in
  let child :=
    {| Propagation.trace_id := trace;
       Propagation.span_id := fresh_span_id;
       Propagation.baggage := Propagation.baggage carrier;
       Propagation.sampled :=
         if root then Sampling.decide ratio_decision policy None trace
         else Propagation.sampled carrier |} in
  ((child, length (spans tr)),
   {| now := now tr; spans := spans tr ++ [r]; submitted := submitted tr |}).

End StartSpan.

(** Modelled from the spec: an update of the record of an open span of
    section 4.2; it does nothing for a closed span, closing being terminal,
    nor for a handle without a record. *)
Definition update_open (h : nat) (f : SpanRecord → SpanRecord)
    (tr : Tracer) : Tracer :=
  match spans tr !! h with
  | Some r =>
      if is_open r then
        {| now := now tr; spans := <[h := f r]> (spans tr);
           submitted := submitted tr |}
      else tr
  | None => tr
  end.

(** Modelled from the spec: [add_event] of section 4.2, a no-op on a closed
    span. *)
Definition add_event (h : nat) (name : string) (attrs : list KeyValue)
    (tr : Tracer) : Tracer :=
  update_open h
    (with_event {| ev_name := name; ev_timestamp := now tr;
                   ev_attributes := attrs |}) tr.

(** Modelled from the spec: [set_status] of section 4.2, last write wins; a
    closed span is immutable. *)
Definition set_status (h : nat) (st : Status) (tr : Tracer) : Tracer :=
  update_open h (with_status st) tr.

(** Modelled from the spec: [end] of section 4.2. The first call stamps
    [end_time] with the clock, which closes the span, and submits the closed
    record to the accumulator; a call on a closed span does nothing. *)
Definition end_span (h : nat) (tr : Tracer) : Tracer :=
  match spans tr !! h with
  | Some r =>
      if is_open r then
        let r' := with_end_time (now tr) r in
        {| now := now tr; spans := <[h := r']> (spans tr);
           submitted := submitted tr ++ [r'] |}
      else tr
  | None => tr
  end.

(** Modelled from the spec: the operations of section 4.2 that an execution
    is made of, and the passing of time. *)
Inductive Op : Type :=
| OpStart (fresh_trace_id fresh_span_id : string)
    (carrier : Propagation.Carrier) (name : string)
| OpAddEvent (h : nat) (name : string) (attrs : list KeyValue)
| OpSetStatus (h : nat) (st : Status)
| OpEnd (h : nat)
| OpTick (d : nat).

(** One operation, and a sequence of them, on a tracer. *)
Definition step (ratio_decision : Q → string → bool) (policy : Sampler)
    (tr : Tracer) (op : Op) : Tracer :=
  match op with
  | OpStart ft fs c name => (start_span ratio_decision policy ft fs c name tr).2
  | OpAddEvent h name attrs => add_event h name attrs tr
  | OpSetStatus h st => set_status h st tr
  | OpEnd h => end_span h tr
  | OpTick d => tick d tr
  end.

Definition run (ratio_decision : Q → string → bool) (policy : Sampler)
    (ops : list Op) (tr : Tracer) : Tracer :=
  foldl (step ratio_decision policy) tr ops.

End Spans.

Module Sink.

(** Modelled from the spec: the Exporter Sink of section 4.5, a queue of
    closed span records bounded by [capacity], and the counter of dropped
    spans. *)
Record Sink := {
  capacity : nat;
  queue : list Spans.SpanRecord;
  dropped : nat
}.

(** Modelled from the spec: the empty sink of capacity [cap]. *)
Definition new_sink (cap : nat) : Sink :=
  {| capacity := cap; queue := []; dropped := 0 |}.

(** Modelled from the spec: enqueueing of section 4.5, which never waits.
    With room the span is appended; on overflow the oldest span, the head of
    the queue, is dropped and counted. A sink of capacity 0 buffers
    nothing. *)
Definition enqueue (sp : Spans.SpanRecord) (s : Sink) : Sink :=
  if length (queue s) <? capacity s then
    {| capacity := capacity s; queue := queue s ++ [sp];
       dropped := dropped s |}
  else
    {| capacity := capacity s; queue := tail (queue s ++ [sp]);
       dropped := S (dropped s) |}.

(** Modelled from the spec: a flush of section 4.5 takes the buffered spans
    as one batch. When the transmission has failed for good, after the
    bounded retries, the spans of the batch are counted as dropped. *)
Definition flush (sent : bool) (s : Sink) : Sink :=
  {| capacity := capacity s; queue := [];
     dropped := if sent then dropped s else dropped s + length (queue s) |}.

(** Modelled from the spec: what happens to a sink, and executions. *)
Inductive Event : Type :=
| Enqueue (sp : Spans.SpanRecord)
| Flush (sent : bool).

Definition step (s : Sink) (e : Event) : Sink :=
  match e with
  | Enqueue sp => enqueue sp s
  | Flush sent => flush sent s
  end.

Definition run (es : list Event) (s : Sink) : Sink := foldl step s es.

(** The states an execution goes through, the first one included. *)
Fixpoint states (es : list Event) (s : Sink) : list Sink :=
  match es with
  | [] => [s]
  | e :: es' => s :: states es' (step s e)
  end.

End Sink.

(** ** Invariants of the core *)

(** The times of a record are in order with respect to a clock reading: the
    span did not start after it, and if the span is closed it ended between
    its start and the reading. *)
Definition times_ordered_at (clock : nat) (r : Spans.SpanRecord) : Prop :=
  Spans.sr_start_time r ≤ clock ∧
  ∀ e, Spans.sr_end_time r = Some e → Spans.sr_start_time r ≤ e ∧ e ≤ clock.

Definition times_ordered (tr : Spans.Tracer) : Prop :=
  Forall (times_ordered_at (Spans.now tr)) (Spans.spans tr) ∧
  Forall (times_ordered_at (Spans.now tr)) (Spans.submitted tr).

(** ** Inputs to evaluate the definitions on *)

Definition env_development : Environ := {[ "GO_ENV" := "development" ]}.
Definition env_production : Environ := {[ "GO_ENV" := "production" ]}.

(** A ratio decision to evaluate with: sample the trace ids that start with
    a decimal digit below 5. *)
Definition sample_low_digit (p : Q) (t : string) : bool :=
  match t with
  | String c _ => (nat_of_ascii c <? 53)%nat
  | EmptyString => false
  end.

(** The headers and the carrier of the scenario of the specification. *)
Definition scenario_headers : gmap string string :=
  {[ "traceparent" := "00-abc123-def456-01";
     "baggage" := "destination=newyork,transportation=truck" ]}.

Definition scenario_carrier : Propagation.Carrier :=
  {| Propagation.trace_id := "abc123"; Propagation.span_id := "def456";
     Propagation.baggage :=
       {[ "destination" := "newyork"; "transportation" := "truck" ]};
     Propagation.sampled := true |}.



Definition root_carrier : Propagation.Carrier :=
  {| Propagation.trace_id := ""; Propagation.span_id := "";
     Propagation.baggage := ∅; Propagation.sampled := false |}.

(** A tracer with one open span, started at time 10, at time 15, and the
    operations that lead there and on. *)
Definition ops_start : list Spans.Op :=
  [Spans.OpStart "4bf92f" "a1" root_carrier "getPackage"; Spans.OpTick 5].

Definition tracer_one_open : Spans.Tracer :=
  Spans.run sample_low_digit AlwaysSample ops_start (Spans.new_tracer 10).

Definition record_one_open : Spans.SpanRecord :=
  {| Spans.sr_trace_id := "4bf92f"; Spans.sr_span_id := "a1";
     Spans.sr_parent_span_id := None; Spans.sr_name := "getPackage";
     Spans.sr_start_time := 10; Spans.sr_end_time := None;
     Spans.sr_attributes := []; Spans.sr_events := [];
     Spans.sr_status := Spans.Unset |}.

Definition ops_start_end : list Spans.Op :=
  ops_start ++ [Spans.OpAddEvent 0 "found package" []; Spans.OpTick 2;
                Spans.OpEnd 0; Spans.OpTick 1; Spans.OpEnd 0].

(** Three closed spans for a sink to receive. *)
Definition closed_span (name : string) (e : nat) : Spans.SpanRecord :=
  {| Spans.sr_trace_id := "4bf92f"; Spans.sr_span_id := name;
     Spans.sr_parent_span_id := None; Spans.sr_name := name;
     Spans.sr_start_time := 10; Spans.sr_end_time := Some e;
     Spans.sr_attributes := []; Spans.sr_events := [];
     Spans.sr_status := Spans.Ok |}.

Definition three_spans : list Spans.SpanRecord :=
  [closed_span "first" 11; closed_span "second" 12; closed_span "third" 13].

Definition http_ok : App2.HttpResults :=
  {| App2.client_Do_err := None;
     App2.response_body := "package is found package (id 123)" +:+ newline;
     App2.ReadAll_err := None |}.

Definition http_refused : App2.HttpResults :=
  {| App2.client_Do_err := Some "connection refused";
     App2.response_body := ""; App2.ReadAll_err := None |}.

Definition client_start : App2.State Recorder :=
  {| App2.st_globals := initial_globals;
     App2.st_tracing := initial_recorder; App2.st_stdout := [] |}.

(** That no telemetry error ends the operation, for the set-up of the
    server. *)
Definition telemetry_errors_never_fatal : Prop :=
  ∀ env sdk name g, is_Returned (Telemetry.InitProvider env sdk name g).

Definition sdk_collector_down : SdkResults :=
  {| resource_New_err := None; otlpmetricgrpc_New_err := None;
     otlptrace_New_err := Some "context deadline exceeded";
     jaeger_New_err := None; traceExp_Shutdown_err := None;
     meterProvider_Shutdown_err := None; tp_Shutdown_err := None |}.

Definition request_77 : Request :=
  {| req_method := "GET"; req_vars := {[ "id" := "77" ]};
     req_ctx := {| ctx_span := 1; ctx_baggage := ∅ |} |}.


Definition sdk_resource_down : SdkResults :=
  {| resource_New_err := Some "no host"; otlpmetricgrpc_New_err := None;
     otlptrace_New_err := None; jaeger_New_err := None;
     traceExp_Shutdown_err := None; meterProvider_Shutdown_err := None;
     tp_Shutdown_err := None |}.

Definition request_123 : Request :=
  {| req_method := "GET"; req_vars := {[ "id" := "123" ]};
     req_ctx :=
       {| ctx_span := 1;
          ctx_baggage :=
            {[ "destination" := "newyork"; "transportation" := "truck" ]} |}
  |}.

Definition recorder_after_middleware : Recorder :=
  {| rec_calls := [CallStart noop_span "GET /packages/{id:[0-9]+}" [] 1];
     rec_next := 2 |}.

(** * Properties *)

(** ** The process monad *)

Lemma bind_Returned {S A B} (m : Proc S A) (k : A → Proc S B) s a s' :
  m s = Returned a s' → (m ≫= k) s = k a s'.
Proof. intros Hm. unfold mbind, Proc_bind. by rewrite Hm. Qed.

Lemma handleErr_None message (g : Globals) :
  Telemetry.handleErr None message g = Returned tt g.
Proof. reflexivity. Qed.

Lemma handleErr_Some e message (g : Globals) :
  Telemetry.handleErr (Some e) message g
  = Exited (Sprintf_msg_err message e).
Proof. reflexivity. Qed.

(** ** Sampler selection *)

Lemma getSampler_production env :
  Getenv env "GO_ENV" = "production" →
  Telemetry.getSampler env = ParentBased (TraceIDRatioBased (1 # 2)).
Proof. unfold Telemetry.getSampler. by intros ->. Qed.

Lemma getSampler_other env :
  Getenv env "GO_ENV" ≠ "production" →
  Telemetry.getSampler env = AlwaysSample.
Proof.
  unfold Telemetry.getSampler. intros Hne.
  destruct (String.eqb_spec (Getenv env "GO_ENV") "development"); [done|].
  by destruct (String.eqb_spec (Getenv env "GO_ENV") "production").
Qed.

(** C3. The sampler is chosen from [GO_ENV]: for every value other than
    ["production"] (the unset variable included) it is the always-sample
    policy, which samples whatever the parent and the trace id are; for
    ["production"] it is the parent-based policy over the trace-id-ratio
    policy with the ratio 1/2 of the source, which takes the sampled flag of
    an inherited carrier and otherwise asks the ratio policy. *)
Theorem getSampler_selects_policy
    (ratio_decision : Q → string → bool) (env : Environ) :
  (Getenv env "GO_ENV" ≠ "production" →
   Telemetry.getSampler env = AlwaysSample ∧
   ∀ parent t,
     Sampling.decide ratio_decision (Telemetry.getSampler env) parent t
     = true) ∧
  (Getenv env "GO_ENV" = "production" →
   Telemetry.getSampler env = ParentBased (TraceIDRatioBased (1 # 2)) ∧
   (∀ c t,
      Sampling.decide ratio_decision (Telemetry.getSampler env) (Some c) t
      = Propagation.sampled c) ∧
   (∀ t,
      Sampling.decide ratio_decision (Telemetry.getSampler env) None t
      = ratio_decision (1 # 2) t)).
Proof.
  split.
  - intros Hne. rewrite (getSampler_other env Hne). done.
  - intros Heq. rewrite (getSampler_production env Heq). done.
Qed.

Lemma getSampler_selects_policy_witness :
  (Telemetry.getSampler env_development = AlwaysSample ∧
   ∀ parent t,
     Sampling.decide sample_low_digit (Telemetry.getSampler env_development)
       parent t = true) ∧
  (Telemetry.getSampler env_production
   = ParentBased (TraceIDRatioBased (1 # 2)) ∧
   (∀ c t,
      Sampling.decide sample_low_digit (Telemetry.getSampler env_production)
        (Some c) t = Propagation.sampled c) ∧
   (∀ t,
      Sampling.decide sample_low_digit (Telemetry.getSampler env_production)
        None t = sample_low_digit (1 # 2) t)).
Proof.
  split.
  - apply (getSampler_selects_policy sample_low_digit env_development).
    vm_compute. discriminate.
  - apply (getSampler_selects_policy sample_low_digit env_production).
    vm_compute. reflexivity.
Defined.

(** ** The package server *)

(** What [getPackage] does for any implementation of the tracing API: it
    always returns, with a value that depends on [id] only, after the calls
    start, event, event or error, end. *)
Lemma getPackage_run {T} `{Tracing T} (ctx : Context) (id : string) (t : T) :
  let started := tracer_Start ctx "getPackage" [] t in
  let span := started.1.2 in
  let t1 := span_AddEvent span "getPackage" [("package", id)] started.2 in
  App1.getPackage ctx id t
  = if String.eqb id "123" then
      Returned "found package"
        (span_End span (span_AddEvent span "found package" [] t1))
    else
      Returned "unknown"
        (span_End span (span_RecordError span "package not found" t1)).
Proof.
  unfold App1.getPackage. cbn.
  unfold mbind, Proc_bind, call, defer, modify, mret, Proc_ret. cbn.
  destruct (tracer_Start ctx "getPackage" [] t) as [[ctx' span] t'] eqn:Hs.
  cbn. by destruct (String.eqb id "123").
Qed.

Lemma getPackage_recorded (ctx : Context) (id : string) (r : Recorder) :
  let span := rec_next r in
  App1.getPackage ctx id r
  = Returned (if String.eqb id "123" then "found package" else "unknown")
      {| rec_calls :=
           rec_calls r ++
           [CallStart (ctx_span ctx) "getPackage" [] span;
            CallAddEvent span "getPackage" [("package", id)];
            if String.eqb id "123" then CallAddEvent span "found package" []
            else CallRecordError span "package not found";
            CallEnd span];
         rec_next := S span |}.
Proof.
  rewrite getPackage_run. cbn. unfold record. cbn.
  destruct (String.eqb id "123"); cbn; by rewrite <- !app_assoc.
Qed.

(** C9. [getPackage] returns ["found package"] exactly for the id ["123"] and
    ["unknown"] for every other id. Among the calls it makes, an event
    ["found package"] is added exactly when the id is ["123"], and an error
    ["package not found"] is recorded exactly when it is not. *)
Theorem getPackage_found_iff_123 (ctx : Context) (id : string) (r : Recorder) :
  ∃ (v : string) (r' : Recorder) (added : list Call),
    App1.getPackage ctx id r = Returned v r' ∧
    rec_calls r' = rec_calls r ++ added ∧
    (v = "found package" ↔ id = "123") ∧
    (v = "unknown" ↔ id ≠ "123") ∧
    ((∃ span attrs, CallAddEvent span "found package" attrs ∈ added)
     ↔ id = "123") ∧
    ((∃ span, CallRecordError span "package not found" ∈ added)
     ↔ id ≠ "123").
Proof.
  eexists _, _, _. split; [apply getPackage_recorded|]. cbn.
  split; [reflexivity|].
  destruct (String.eqb_spec id "123") as [->|Hne].
  - split_and!; try done.
    + split; [done|]. intros _. eexists _, _. apply list_elem_of_In. cbn. eauto.
    + split; [|done]. intros [span Hin].
      rewrite !elem_of_cons, elem_of_nil in Hin.
      destruct Hin as [Hin|[Hin|[Hin|[Hin|[]]]]]; discriminate.
  - split_and!; try done.
    + split; [|done]. intros (span & attrs & Hin).
      rewrite !elem_of_cons, elem_of_nil in Hin.
      destruct Hin as [Hin|[Hin|[Hin|[Hin|[]]]]]; discriminate.
    + split; [done|]. intros _. eexists. apply list_elem_of_In. cbn. eauto.
Qed.

Lemma getPackage_returns {T} `{Tracing T} (ctx : Context) (id : string)
    (t : T) :
  ∃ t', App1.getPackage ctx id t
        = Returned (if String.eqb id "123" then "found package" else "unknown")
            t'.
Proof. rewrite getPackage_run. destruct (String.eqb id "123"); eauto. Qed.

Lemma packagesHandler_run {T} `{Tracing T} (w : ResponseWriter) (r : Request)
    (t : T) :
  let id := default "" (req_vars r !! "id") in
  ∀ pr t1, App1.getPackage (req_ctx r) id t = Returned pr t1 →
  App1.packagesHandler w r t
  = Returned (Write (App1.Sprintf_reply pr id) w)
      (span_AddEvent (ctx_span (req_ctx r)) "Obtaining package"
         [("destination", Member_Value (ctx_baggage (req_ctx r)) "destination");
          ("transportation",
           Member_Value (ctx_baggage (req_ctx r)) "transportation")] t1).
Proof.
  intros id pr t1 Hget. unfold App1.packagesHandler.
  erewrite bind_Returned by exact Hget. reflexivity.
Qed.

(** What the handler does on the recorder. *)
Lemma packagesHandler_recorded (w : ResponseWriter) (r : Request)
    (rec : Recorder) :
  let id := default "" (req_vars r !! "id") in
  let ctx := req_ctx r in
  let span := rec_next rec in
  App1.packagesHandler w r rec
  = Returned
      (Write (App1.Sprintf_reply
                (if String.eqb id "123" then "found package" else "unknown")
                id) w)
      {| rec_calls :=
           rec_calls rec ++
           [CallStart (ctx_span ctx) "getPackage" [] span;
            CallAddEvent span "getPackage" [("package", id)];
            if String.eqb id "123" then CallAddEvent span "found package" []
            else CallRecordError span "package not found";
            CallEnd span;
            CallAddEvent (ctx_span ctx) "Obtaining package"
              [("destination", Member_Value (ctx_baggage ctx) "destination");
               ("transportation",
                Member_Value (ctx_baggage ctx) "transportation")]];
         rec_next := S span |}.
Proof.
  intros id ctx span.
  rewrite (packagesHandler_run w r rec _ _ (getPackage_recorded ctx id rec)).
  cbn. unfold record. cbn. by rewrite <- app_assoc.
Qed.

(** C10. For every request that reaches the handler of
    ["/packages/{id:[0-9]+}"], with any implementation of the tracing API, the
    handler returns after exactly one [Write], of the string
    ["package is <r> (id <id>)\n"] where [<r>] is what [getPackage] returned
    for the [id] of the route, and the status is the 200 of that first write
    on a fresh writer. On the recorder of the calls: the handler makes the
    calls of [getPackage] and then one event on the span of the request; when
    the package is not found, which is exactly when [id] is not ["123"] and
    [<r>] is ["unknown"], that outcome is the error ["package not found"]
    recorded on the span that [getPackage] started, all calls of [getPackage]
    being on that span, while the response is the same single write with
    status 200. *)
Theorem packagesHandler_writes_reply :
  (∀ T (HT : Tracing T) (w : ResponseWriter) (r : Request) (t : T),
     ∃ (pr : string) (t1 t2 : T) (w' : ResponseWriter),
       App1.getPackage (req_ctx r) (default "" (req_vars r !! "id")) t
       = Returned pr t1 ∧
       App1.packagesHandler w r t = Returned w' t2 ∧
       rw_writes w'
       = rw_writes w ++
         ["package is " +:+ pr +:+ " (id "
            +:+ default "" (req_vars r !! "id") +:+ ")" +:+ newline] ∧
       rw_status w' = Some (default 200 (rw_status w)) ∧
       (w = new_response →
        w' = {| rw_status := Some 200;
                rw_writes :=
                  [App1.Sprintf_reply pr
                     (default "" (req_vars r !! "id"))] |})) ∧
  (∀ (w : ResponseWriter) (r : Request) (rec : Recorder),
     ∃ (pr : string) (rec1 rec2 : Recorder) (w' : ResponseWriter)
       (added : list Call),
       App1.getPackage (req_ctx r) (default "" (req_vars r !! "id")) rec
       = Returned pr rec1 ∧
       App1.packagesHandler w r rec = Returned w' rec2 ∧
       rw_writes w'
       = rw_writes w ++
         [App1.Sprintf_reply pr (default "" (req_vars r !! "id"))] ∧
       rw_status w' = Some (default 200 (rw_status w)) ∧
       rec_calls rec1 = rec_calls rec ++ added ∧
       rec_calls rec2
       = rec_calls rec1 ++
         [CallAddEvent (ctx_span (req_ctx r)) "Obtaining package"
            [("destination",
              Member_Value (ctx_baggage (req_ctx r)) "destination");
             ("transportation",
              Member_Value (ctx_baggage (req_ctx r)) "transportation")]] ∧
       (∀ c, c ∈ added → call_span c = rec_next rec) ∧
       (pr = "unknown" ↔ default "" (req_vars r !! "id") ≠ "123") ∧
       (CallRecordError (rec_next rec) "package not found" ∈ added
        ↔ default "" (req_vars r !! "id") ≠ "123")).
Proof.
  split.
  - intros T HT w r t.
    destruct (getPackage_returns (req_ctx r)
                (default "" (req_vars r !! "id")) t) as [t1 Hget].
    eexists _, t1, _, _. split; [exact Hget|].
    split; [apply (packagesHandler_run w r t _ t1 Hget)|].
    split_and!; try reflexivity. by intros ->.
  - intros w r rec. eexists _, _, _, _, _.
    split; [apply getPackage_recorded|].
    split; [apply packagesHandler_recorded|]. cbn.
    split; [reflexivity|]. split; [reflexivity|]. split; [reflexivity|].
    split; [by rewrite <- app_assoc|].
    destruct (String.eqb_spec (default "" (req_vars r !! "id")) "123")
      as [Heq|Hne].
    + split_and!.
      * intros c Hin. rewrite !elem_of_cons, elem_of_nil in Hin.
        destruct Hin as [->|[->|[->|[->|[]]]]]; reflexivity.
      * split; [discriminate|done].
      * split; [|done]. intros Hin.
        rewrite !elem_of_cons, elem_of_nil in Hin.
        destruct Hin as [Hin|[Hin|[Hin|[Hin|[]]]]]; discriminate.
    + split_and!.
      * intros c Hin. rewrite !elem_of_cons, elem_of_nil in Hin.
        destruct Hin as [->|[->|[->|[->|[]]]]]; reflexivity.
      * done.
      * split; [done|]. intros _. apply list_elem_of_In. cbn. tauto.
Qed.

Lemma packagesHandler_writes_reply_witness :
  ∃ (rec2 : Recorder) (w' : ResponseWriter),
    App1.packagesHandler new_response request_77 recorder_after_middleware
    = Returned w' rec2 ∧
    w' = {| rw_status := Some 200;
            rw_writes := ["package is unknown (id 77)" +:+ newline] |} ∧
    CallRecordError 2 "package not found" ∈ rec_calls rec2.
Proof.
  destruct (proj2 packagesHandler_writes_reply new_response request_77
              recorder_after_middleware)
    as (pr & rec1 & rec2 & w' & added & Hget & Hrun & Hw & Hst & Hadded
        & Hcalls & _ & Hpr & Herr).
  assert (default "" (req_vars request_77 !! "id") ≠ "123") as Hne
    by (vm_compute; discriminate).
  exists rec2, w'. split; [exact Hrun|]. split.
  - destruct w' as [st ws]. cbn in Hw, Hst.
    rewrite Hw, Hst, (proj2 Hpr Hne). reflexivity.
  - rewrite Hcalls, Hadded. apply elem_of_app. left. apply elem_of_app.
    right. exact (proj2 Herr Hne).
Defined.

(** ** Which telemetry errors end the process *)

Lemma InitProvider_Returned env sdk name g :
  is_Returned (Telemetry.InitProvider env sdk name g) ↔
  resource_New_err sdk = None ∧ otlpmetricgrpc_New_err sdk = None ∧
  otlptrace_New_err sdk = None.
Proof.
  unfold Telemetry.InitProvider.
  destruct sdk as [[e1|] [e2|] [e3|] j ts ms tps]; cbn; split;
    try (intros []; fail); try (intros (? & ? & ?); discriminate);
    try done.
Qed.

Lemma InitProvider_result env sdk name g :
  resource_New_err sdk = None → otlpmetricgrpc_New_err sdk = None →
  otlptrace_New_err sdk = None →
  ∃ g', Telemetry.InitProvider env sdk name g
        = Returned (Telemetry.InitProvider_shutdown sdk) g' ∧
        g_textMapPropagator g' = [TraceContext; Baggage] ∧
        tp_sampler <$> g_tracerProvider g' = Some (Telemetry.getSampler env) ∧
        g_handled g' = g_handled g.
Proof.
  intros H1 H2 H3. unfold Telemetry.InitProvider. rewrite H1, H2, H3.
  eexists. split; [reflexivity|]. done.
Qed.

Lemma InitProvider_shutdown_run sdk g :
  Telemetry.InitProvider_shutdown sdk g
  = Returned tt
      {| g_meterProvider := g_meterProvider g;
         g_textMapPropagator := g_textMapPropagator g;
         g_tracerProvider := g_tracerProvider g;
         g_handled :=
           g_handled g ++ option_list (traceExp_Shutdown_err sdk)
             ++ option_list (meterProvider_Shutdown_err sdk) |}.
Proof.
  unfold Telemetry.InitProvider_shutdown.
  destruct g, (traceExp_Shutdown_err sdk), (meterProvider_Shutdown_err sdk);
    unfold mbind, Proc_bind, modify, mret, Proc_ret, Handle; cbn;
    rewrite <- ?app_assoc, ?app_nil_r; reflexivity.
Qed.

Lemma InitProviderWithJaegerExporter_Returned env sdk g :
  is_Returned (Telemetry.InitProviderWithJaegerExporter env sdk g) ↔
  jaeger_New_err sdk = None ∧ resource_New_err sdk = None.
Proof.
  unfold Telemetry.InitProviderWithJaegerExporter, Telemetry.exporterToJaeger,
    Telemetry.newResource.
  destruct sdk as [[e1|] m t [e2|] ts ms tps]; cbn; split;
    try (intros []; fail); try (intros (? & ?); discriminate); try done.
Qed.

Lemma client_main_Returned {T} `{Tracing T} env sdk http bag
    (s : App2.State T) :
  is_Returned (App2.main env sdk http bag s) ↔
  otlptrace_New_err sdk = None ∧ App2.client_Do_err http = None ∧
  App2.ReadAll_err http = None ∧ tp_Shutdown_err sdk = None.
Proof.
  unfold App2.main, App2.initTracer, App2.request.
  destruct sdk as [r m [e1|] j ts ms [e4|]], http as [[e2|] body [e3|]];
    cbn;
    unfold mbind, Proc_bind, App2.on_globals, App2.on_tracing, defer, modify,
      panic, mret, Proc_ret; cbn;
    try match goal with
        | |- context [tracer_Start ?a ?b ?c ?d] =>
            destruct (tracer_Start a b c d) as [[ctx' span] t']; cbn
        end;
    split; try (intros []; fail);
    try (intros (? & ? & ? & ?); discriminate); done.
Qed.

(** How the client ends otherwise: a failed exporter construction exits, a
    failed [client.Do] panics after the span was ended, unless the shutdown
    of the tracer provider fails too, which exits. *)
Lemma client_main_exporter_failure {T} `{Tracing T} env sdk http bag
    (s : App2.State T) e :
  otlptrace_New_err sdk = Some e →
  App2.main env sdk http bag s
  = Exited
      (Sprintf_msg_err "Failed to create the collector trace exporter" e).
Proof.
  intros He. unfold App2.main, App2.initTracer. rewrite He. reflexivity.
Qed.

Lemma client_main_request_failure {T} `{Tracing T} env sdk http bag
    (s : App2.State T) e :
  otlptrace_New_err sdk = None → App2.client_Do_err http = Some e →
  match tp_Shutdown_err sdk with
  | Some _ => is_Exited (App2.main env sdk http bag s)
  | None => is_Panicked (App2.main env sdk http bag s)
  end.
Proof.
  intros Hexp Hdo. unfold App2.main, App2.initTracer, App2.request.
  rewrite Hexp, Hdo. destruct (tp_Shutdown_err sdk); cbn;
    unfold mbind, Proc_bind, App2.on_globals, App2.on_tracing, defer, modify,
      panic, mret, Proc_ret; cbn;
    destruct (tracer_Start _ _ _ _) as [[ctx' span] t']; exact I.
Qed.

(** C1, as stated, fails: when the trace exporter cannot be constructed,
    [InitProvider] ends the server process through [log.Fatalf]. *)
Lemma InitProvider_exporter_failure_exits :
  Telemetry.InitProvider ∅ sdk_collector_down App1.serverName initial_globals
  = Exited
      "Failed to create the collector trace exporter: context deadline exceeded"
  ∧ ¬ telemetry_errors_never_fatal.
Proof.
  split; [reflexivity|].
  intros Hnever.
  exact (Hnever ∅ sdk_collector_down App1.serverName initial_globals).
Qed.

(** C1, amended. A telemetry error ends the process exactly where the sources
    hand it to [log.Fatalf]: [InitProvider] returns if and only if resource
    creation and the construction of both exporters succeed,
    [InitProviderWithJaegerExporter] if and only if exporter construction and
    resource creation succeed, and the client's [main] if and only if the
    construction of the trace exporter, the HTTP exchange and the shutdown of
    the tracer provider succeed (it ignores a failed resource creation). No
    other telemetry error is fatal: the shutdown function of the server
    always returns and hands the shutdown errors to [otel.Handle], and
    [getPackage] and the packages handler return for every implementation of
    the tracing API. *)
Theorem telemetry_errors_fatal_only_at_setup :
  (∀ env sdk name g,
     is_Returned (Telemetry.InitProvider env sdk name g) ↔
     resource_New_err sdk = None ∧ otlpmetricgrpc_New_err sdk = None ∧
     otlptrace_New_err sdk = None) ∧
  (∀ env sdk g,
     is_Returned (Telemetry.InitProviderWithJaegerExporter env sdk g) ↔
     jaeger_New_err sdk = None ∧ resource_New_err sdk = None) ∧
  (∀ T (HT : Tracing T) env sdk http bag (s : App2.State T),
     is_Returned (App2.main env sdk http bag s) ↔
     otlptrace_New_err sdk = None ∧ App2.client_Do_err http = None ∧
     App2.ReadAll_err http = None ∧ tp_Shutdown_err sdk = None) ∧
  (∀ sdk g,
     ∃ g', Telemetry.InitProvider_shutdown sdk g = Returned tt g' ∧
           g_handled g'
           = g_handled g ++ option_list (traceExp_Shutdown_err sdk)
               ++ option_list (meterProvider_Shutdown_err sdk)) ∧
  (∀ T (HT : Tracing T) ctx id (t : T),
     is_Returned (App1.getPackage ctx id t)) ∧
  (∀ T (HT : Tracing T) w r (t : T),
     is_Returned (App1.packagesHandler w r t)).
Proof.
  split_and!.
  - apply InitProvider_Returned.
  - apply InitProviderWithJaegerExporter_Returned.
  - intros. apply client_main_Returned.
  - intros sdk g. eexists. split; [apply InitProvider_shutdown_run|done].
  - intros T HT ctx id t.
    destruct (getPackage_returns ctx id t) as [t' ->]. exact I.
  - intros T HT w r t.
    destruct (getPackage_returns (req_ctx r) (default "" (req_vars r !! "id")) t)
      as [t1 Hget].
    rewrite (packagesHandler_run w r t _ t1 Hget). exact I.
Qed.

(** ** Delimited strings *)

Lemma app_String a (s t : string) : String a s +:+ t = String a (s +:+ t).
Proof. reflexivity. Qed.

Lemma app_Empty (t : string) : "" +:+ t = t.
Proof. reflexivity. Qed.


Lemma contains_cons c a s :
  contains c (String a s) = false → Ascii.eqb a c = false ∧ contains c s = false.
Proof. cbn. by intros [? ?]%orb_false_iff. Qed.

Lemma split_on_token sep s : contains sep s = false → split_on sep s = [s].
Proof.
  induction s as [|a s IH]; [done|].
  intros [Ha Hs]%contains_cons. cbn. rewrite Ha, (IH Hs). done.
Qed.

Lemma split_on_app sep a b :
  contains sep a = false →
  split_on sep (a +:+ String sep b) = a :: split_on sep b.
Proof.
  induction a as [|c a IH].
  - intros _. rewrite app_Empty. cbn. by rewrite Ascii.eqb_refl.
  - intros [Hc Ha]%contains_cons. rewrite app_String. cbn.
    rewrite Hc, (IH Ha). done.
Qed.





(** ** Propagation *)











(** C5. Extracting the headers
    [{"traceparent": "00-abc123-def456-01",
      "baggage": "destination=newyork,transportation=truck"}]
    yields a carrier whose sampled flag is true and whose baggage is exactly
    [{destination: newyork, transportation: truck}]. That baggage is what the
    client sets from the string it parses, and its two members are the values
    that the packages handler reads. *)
Theorem extract_scenario :
  ∃ c, Propagation.extract scenario_headers = Some c ∧
       Propagation.sampled c = true ∧
       Propagation.baggage c
       = {[ "destination" := "newyork"; "transportation" := "truck" ]} ∧
       Propagation.trace_id c = "abc123" ∧ Propagation.span_id c = "def456" ∧
       Propagation.parse_baggage "destination=newyork,transportation=truck"
       = Some (Propagation.baggage c) ∧
       Member_Value (Propagation.baggage c) "destination" = "newyork" ∧
       Member_Value (Propagation.baggage c) "transportation" = "truck".
Proof.
  exists scenario_carrier. split_and!; try done; vm_compute; reflexivity.
Qed.

(** ** Spans *)

Section SpanFacts.

Context (ratio_decision : Q → string → bool) (policy : Sampler).

Lemma update_open_closed h f tr r :
  Spans.spans tr !! h = Some r → Spans.is_open r = false →
  Spans.update_open h f tr = tr.
Proof. intros Hr Hc. unfold Spans.update_open. by rewrite Hr, Hc. Qed.

Lemma end_span_closed h tr r :
  Spans.spans tr !! h = Some r → Spans.is_open r = false →
  Spans.end_span h tr = tr.
Proof. intros Hr Hc. unfold Spans.end_span. by rewrite Hr, Hc. Qed.

Lemma end_span_open h tr r :
  Spans.spans tr !! h = Some r → Spans.is_open r = true →
  Spans.end_span h tr
  = {| Spans.now := Spans.now tr;
       Spans.spans :=
         <[h := Spans.with_end_time (Spans.now tr) r]> (Spans.spans tr);
       Spans.submitted :=
         Spans.submitted tr ++ [Spans.with_end_time (Spans.now tr) r] |}.
Proof. intros Hr Ho. unfold Spans.end_span. by rewrite Hr, Ho. Qed.

(** No span re-opens, and a closed record is never changed. *)
Lemma update_open_keeps_closed h' f h tr r :
  Spans.spans tr !! h = Some r → Spans.is_open r = false →
  Spans.spans (Spans.update_open h' f tr) !! h = Some r.
Proof.
  intros Hr Hc. unfold Spans.update_open.
  destruct (Spans.spans tr !! h') as [r'|] eqn:Hr'; [|done].
  destruct (Spans.is_open r') eqn:Ho; [|done]. cbn.
  destruct (decide (h' = h)) as [->|Hne].
  - congruence.
  - by rewrite list_lookup_insert_ne.
Qed.

Lemma step_keeps_closed op h tr r :
  Spans.spans tr !! h = Some r → Spans.is_open r = false →
  Spans.spans (Spans.step ratio_decision policy tr op) !! h = Some r.
Proof.
  intros Hr Hc. destruct op as [ft fs c name|h' name attrs|h' st|h'|d]; cbn.
  - by apply lookup_app_l_Some.
  - by apply update_open_keeps_closed.
  - by apply update_open_keeps_closed.
  - unfold Spans.end_span.
    destruct (Spans.spans tr !! h') as [r'|] eqn:Hr'; [|done].
    destruct (Spans.is_open r') eqn:Ho; [|done]. cbn.
    destruct (decide (h' = h)) as [->|Hne].
    + congruence.
    + by rewrite list_lookup_insert_ne.
  - done.
Qed.

Lemma run_keeps_closed ops h tr r :
  Spans.spans tr !! h = Some r → Spans.is_open r = false →
  Spans.spans (Spans.run ratio_decision policy ops tr) !! h = Some r.
Proof.
  revert tr. induction ops as [|op ops IH]; intros tr Hr Hc; [done|].
  cbn. apply IH; [|done]. by apply step_keeps_closed.
Qed.

(** The handle that [start_span] returns refers to an open span, and the span
    stays open, with its start time, until the first [end] on that handle. *)
Lemma start_span_open ft fs c name tr :
  let started := Spans.start_span ratio_decision policy ft fs c name tr in
  ∃ r, Spans.spans started.2 !! started.1.2 = Some r ∧
       Spans.is_open r = true ∧ Spans.sr_start_time r = Spans.now tr.
Proof.
  cbn. eexists. split.
  - rewrite lookup_app_r by done. rewrite Nat.sub_diag. reflexivity.
  - done.
Qed.

Lemma update_open_keeps_open h' f h tr r :
  (∀ r0, Spans.sr_end_time (f r0) = Spans.sr_end_time r0 ∧
         Spans.sr_start_time (f r0) = Spans.sr_start_time r0) →
  Spans.spans tr !! h = Some r → Spans.is_open r = true →
  ∃ r', Spans.spans (Spans.update_open h' f tr) !! h = Some r' ∧
        Spans.is_open r' = true ∧
        Spans.sr_start_time r' = Spans.sr_start_time r.
Proof.
  intros Hf Hr Ho. unfold Spans.update_open.
  destruct (Spans.spans tr !! h') as [r0|] eqn:Hr0; [|by exists r].
  destruct (Spans.is_open r0) eqn:Ho0; [|by exists r]. cbn.
  destruct (decide (h' = h)) as [->|Hne].
  - exists (f r0). assert (r0 = r) as -> by congruence.
    rewrite list_lookup_insert_eq by by eapply lookup_lt_Some.
    destruct (Hf r) as [He Hs]. unfold Spans.is_open in *.
    by rewrite He, Hs.
  - exists r. by rewrite list_lookup_insert_ne.
Qed.

Lemma span_open_until_end ops h tr r :
  Spans.spans tr !! h = Some r → Spans.is_open r = true →
  Spans.OpEnd h ∉ ops →
  ∃ r', Spans.spans (Spans.run ratio_decision policy ops tr) !! h = Some r' ∧
        Spans.is_open r' = true ∧
        Spans.sr_start_time r' = Spans.sr_start_time r.
Proof.
  revert tr r. induction ops as [|op ops IH]; intros tr r Hr Ho Hnot.
  { by exists r. }
  apply not_elem_of_cons in Hnot as [Hop Hnot]. cbn.
  assert (∃ r1, Spans.spans (Spans.step ratio_decision policy tr op) !! h
                = Some r1 ∧ Spans.is_open r1 = true ∧
                Spans.sr_start_time r1 = Spans.sr_start_time r)
    as (r1 & Hr1 & Ho1 & Hs1).
  { destruct op as [ft fs c name|h' name attrs|h' st|h'|d]; cbn.
    - exists r. split; [|done]. by apply lookup_app_l_Some.
    - by apply update_open_keeps_open.
    - by apply update_open_keeps_open.
    - exists r. split; [|done]. unfold Spans.end_span.
      destruct (Spans.spans tr !! h') as [r0|] eqn:Hr0; [|done].
      destruct (Spans.is_open r0); [|done]. cbn.
      rewrite list_lookup_insert_ne; [done|]. congruence.
    - by exists r. }
  destruct (IH _ r1 Hr1 Ho1 Hnot) as (r' & Hr' & Ho' & Hs').
  exists r'. split_and!; [done..|]. congruence.
Qed.

(** C6. A span handle refers to an open span from [start_span] until the
    first [end] on it ([start_span_open], [span_open_until_end]). That first
    [end] stamps [end_time] with the clock, which closes the span, and
    submits the closed record to the accumulator, once: nothing else of the
    tracer changes. From then on, after whatever further operations, [end]
    on the same handle changes nothing. *)
Theorem end_span_first_call_only (tr : Spans.Tracer) (h : nat)
    (r : Spans.SpanRecord) :
  Spans.spans tr !! h = Some r → Spans.is_open r = true →
  let closed := Spans.with_end_time (Spans.now tr) r in
  let tr1 := Spans.end_span h tr in
  Spans.spans tr1 = <[h := closed]> (Spans.spans tr) ∧
  Spans.spans tr1 !! h = Some closed ∧
  Spans.sr_end_time closed = Some (Spans.now tr) ∧
  Spans.is_open closed = false ∧
  Spans.submitted tr1 = Spans.submitted tr ++ [closed] ∧
  Spans.now tr1 = Spans.now tr ∧
  Spans.end_span h tr1 = tr1 ∧
  ∀ ops,
    Spans.end_span h (Spans.run ratio_decision policy ops tr1)
    = Spans.run ratio_decision policy ops tr1.
Proof.
  intros Hr Ho closed tr1.
  assert (Spans.spans tr1 !! h = Some closed) as Hclosed.
  { unfold tr1. rewrite (end_span_open h tr r Hr Ho). cbn.
    apply list_lookup_insert_eq. by eapply lookup_lt_Some. }
  split_and!.
  - unfold tr1. by rewrite (end_span_open h tr r Hr Ho).
  - exact Hclosed.
  - reflexivity.
  - reflexivity.
  - unfold tr1. by rewrite (end_span_open h tr r Hr Ho).
  - unfold tr1. by rewrite (end_span_open h tr r Hr Ho).
  - by apply (end_span_closed h tr1 closed).
  - intros ops. apply (end_span_closed h _ closed); [|done].
    by apply run_keeps_closed.
Qed.

End SpanFacts.

Lemma end_span_first_call_only_witness :
  Spans.submitted (Spans.end_span 0 tracer_one_open)
  = [Spans.with_end_time 15 record_one_open] ∧
  Spans.end_span 0
    (Spans.run sample_low_digit AlwaysSample
       [Spans.OpTick 3; Spans.OpAddEvent 0 "late" []]
       (Spans.end_span 0 tracer_one_open))
  = Spans.run sample_low_digit AlwaysSample
      [Spans.OpTick 3; Spans.OpAddEvent 0 "late" []]
      (Spans.end_span 0 tracer_one_open).
Proof.
  pose proof (end_span_first_call_only sample_low_digit AlwaysSample
                tracer_one_open 0 record_one_open eq_refl eq_refl) as Hend.
  cbv zeta in Hend.
  destruct Hend as (_ & _ & _ & _ & Hsub & _ & _ & Hlater).
  split; [exact Hsub|]. apply Hlater.
Defined.

(** ** Times of a span *)

Lemma times_ordered_at_mono clock clock' r :
  clock ≤ clock' → times_ordered_at clock r → times_ordered_at clock' r.
Proof.
  intros Hle [Hs He]. split; [lia|].
  intros e Hend. destruct (He e Hend). lia.
Qed.

Lemma times_ordered_at_with_event clock ev r :
  times_ordered_at clock r → times_ordered_at clock (Spans.with_event ev r).
Proof. by intros [Hs He]. Qed.

Lemma times_ordered_at_with_status clock st r :
  times_ordered_at clock r → times_ordered_at clock (Spans.with_status st r).
Proof. by intros [Hs He]. Qed.

Lemma times_ordered_at_with_end_time clock r :
  times_ordered_at clock r →
  times_ordered_at clock (Spans.with_end_time clock r).
Proof.
  intros [Hs He]. split; [done|]. cbn. intros e [= <-]. lia.
Qed.

Lemma times_ordered_update_open h f tr :
  (∀ r, times_ordered_at (Spans.now tr) r →
        times_ordered_at (Spans.now tr) (f r)) →
  times_ordered tr → times_ordered (Spans.update_open h f tr).
Proof.
  intros Hf [Hspans Hsub]. unfold Spans.update_open.
  destruct (Spans.spans tr !! h) as [r|] eqn:Hr; [|done].
  destruct (Spans.is_open r); [|done].
  split; [|done]. cbn. apply Forall_insert; [done|].
  apply Hf. exact (Forall_lookup_1 _ _ _ _ Hspans Hr).
Qed.

Lemma times_ordered_new t0 : times_ordered (Spans.new_tracer t0).
Proof. split; constructor. Qed.

Section TimesFacts.

Context (ratio_decision : Q → string → bool) (policy : Sampler).

Lemma times_ordered_step tr op :
  times_ordered tr → times_ordered (Spans.step ratio_decision policy tr op).
Proof.
  intros Hord. destruct op as [ft fs c name|h name attrs|h st|h|d]; cbn.
  - destruct Hord as [Hspans Hsub]. split; [|done]. cbn.
    apply Forall_app. split; [done|]. apply Forall_singleton.
    split; [done|]. cbn. discriminate.
  - apply times_ordered_update_open; [|done].
    intros r. apply times_ordered_at_with_event.
  - apply times_ordered_update_open; [|done].
    intros r. apply times_ordered_at_with_status.
  - destruct Hord as [Hspans Hsub]. unfold Spans.end_span.
    destruct (Spans.spans tr !! h) as [r|] eqn:Hr; [|done].
    destruct (Spans.is_open r); [|done].
    assert (times_ordered_at (Spans.now tr)
              (Spans.with_end_time (Spans.now tr) r)) as Hclosed.
    { apply times_ordered_at_with_end_time.
      exact (Forall_lookup_1 _ _ _ _ Hspans Hr). }
    split; cbn.
    + by apply Forall_insert.
    + apply Forall_app. split; [done|]. by apply Forall_singleton.
  - destruct Hord as [Hspans Hsub].
    split; cbn; (eapply Forall_impl; [eassumption|]);
      intros r; apply times_ordered_at_mono; lia.
Qed.

Lemma times_ordered_run ops tr :
  times_ordered tr → times_ordered (Spans.run ratio_decision policy ops tr).
Proof.
  revert tr. induction ops as [|op ops IH]; intros tr Hord; [done|].
  cbn. apply IH. by apply times_ordered_step.
Qed.

(** Only closed records reach the accumulator. *)
Lemma submitted_closed_step tr op :
  Forall (λ r, Spans.is_open r = false) (Spans.submitted tr) →
  Forall (λ r, Spans.is_open r = false)
    (Spans.submitted (Spans.step ratio_decision policy tr op)).
Proof.
  intros Hsub. destruct op as [ft fs c name|h name attrs|h st|h|d]; cbn;
    try done.
  - unfold Spans.add_event, Spans.update_open.
    destruct (Spans.spans tr !! h) as [r|]; [|done].
    by destruct (Spans.is_open r).
  - unfold Spans.set_status, Spans.update_open.
    destruct (Spans.spans tr !! h) as [r|]; [|done].
    by destruct (Spans.is_open r).
  - unfold Spans.end_span.
    destruct (Spans.spans tr !! h) as [r|]; [|done].
    destruct (Spans.is_open r); [|done]. cbn.
    apply Forall_app. split; [done|]. by apply Forall_singleton.
Qed.

Lemma submitted_closed_run ops tr :
  Forall (λ r, Spans.is_open r = false) (Spans.submitted tr) →
  Forall (λ r, Spans.is_open r = false)
    (Spans.submitted (Spans.run ratio_decision policy ops tr)).
Proof.
  revert tr. induction ops as [|op ops IH]; intros tr Hsub; [done|].
  cbn. apply IH. by apply submitted_closed_step.
Qed.

(** C7. In every state that a tracer reaches from its start, by whatever
    operations and with a clock that does not go back, a span that has been
    closed by [end] has an [end_time] that is at least its [start_time]; so
    has every record that the accumulator received, and all of these are
    closed. *)
Theorem end_time_not_before_start_time (ops : list Spans.Op) (t0 : nat) :
  let tr := Spans.run ratio_decision policy ops (Spans.new_tracer t0) in
  (∀ h r e,
     Spans.spans tr !! h = Some r → Spans.sr_end_time r = Some e →
     Spans.sr_start_time r ≤ e) ∧
  (∀ r, r ∈ Spans.submitted tr →
        ∃ e, Spans.sr_end_time r = Some e ∧ Spans.sr_start_time r ≤ e).
Proof.
  intros tr.
  destruct (times_ordered_run ops _ (times_ordered_new t0)) as [Hspans Hsub].
  fold tr in Hspans, Hsub. split.
  - intros h r e Hr Hend.
    destruct (Forall_lookup_1 _ _ _ _ Hspans Hr) as [_ He].
    by destruct (He e Hend).
  - intros r Hin.
    assert (Spans.is_open r = false) as Hclosed.
    { pose proof (submitted_closed_run ops (Spans.new_tracer t0)
                    (Forall_nil_2 _)) as Hall.
      fold tr in Hall. rewrite Forall_forall in Hall. by apply Hall. }
    unfold Spans.is_open in Hclosed.
    destruct (Spans.sr_end_time r) as [e|] eqn:Hend; [|done].
    exists e. split; [done|].
    rewrite Forall_forall in Hsub. destruct (Hsub r Hin) as [_ He].
    by destruct (He e Hend).
Qed.

End TimesFacts.

Lemma end_time_not_before_start_time_witness :
  (∃ r, Spans.spans
          (Spans.run sample_low_digit AlwaysSample ops_start_end
             (Spans.new_tracer 10)) !! 0 = Some r ∧
        Spans.sr_end_time r = Some 17 ∧ Spans.sr_start_time r ≤ 17).
Proof.
  eexists. split; [vm_compute; reflexivity|]. split; [reflexivity|].
  refine (proj1 (end_time_not_before_start_time sample_low_digit AlwaysSample
                   ops_start_end 10) 0 _ 17 _ _); vm_compute; reflexivity.
Defined.

(** ** The exporter sink *)

Lemma sink_run_snoc es e s :
  Sink.run (es ++ [e]) s = Sink.step (Sink.run es s) e.
Proof. unfold Sink.run. by rewrite foldl_snoc. Qed.

Lemma sink_step_capacity s e : Sink.capacity (Sink.step s e) = Sink.capacity s.
Proof.
  destruct e as [sp|sent]; cbn; [|done].
  unfold Sink.enqueue. by destruct (_ <? _).
Qed.

Lemma sink_step_dropped s e : Sink.dropped s ≤ Sink.dropped (Sink.step s e).
Proof.
  destruct e as [sp|sent]; cbn.
  - unfold Sink.enqueue. destruct (_ <? _); cbn; lia.
  - destruct sent; cbn; lia.
Qed.

Lemma tail_length {A} (l : list A) : length (tail l) = length l - 1.
Proof. destruct l; cbn; lia. Qed.

Lemma sink_enqueue_bounded sp s :
  length (Sink.queue s) ≤ Sink.capacity s →
  length (Sink.queue (Sink.enqueue sp s)) ≤ Sink.capacity s.
Proof.
  intros Hle. unfold Sink.enqueue.
  destruct (Nat.ltb_spec (length (Sink.queue s)) (Sink.capacity s)); cbn.
  - rewrite length_app. cbn. lia.
  - rewrite tail_length, length_app. cbn. lia.
Qed.

Lemma tail_drop {A} (n : nat) (l : list A) : tail (drop n l) = drop (S n) l.
Proof.
  revert n. induction l as [|x l IH]; intros [|n]; cbn; done.
Qed.

(** What a sink of capacity [cap] holds after the spans [sps] were enqueued
    into the empty sink: the last [cap] of them, the others counted as
    dropped. *)
Lemma sink_enqueue_all cap (sps : list Spans.SpanRecord) :
  Sink.run (Sink.Enqueue <$> sps) (Sink.new_sink cap)
  = {| Sink.capacity := cap; Sink.queue := drop (length sps - cap) sps;
       Sink.dropped := length sps - cap |}.
Proof.
  induction sps as [|sp sps IH] using rev_ind; [done|].
  rewrite fmap_app. cbn [fmap list_fmap]. rewrite sink_run_snoc, IH.
  cbn [Sink.step]. unfold Sink.enqueue.
  cbn [Sink.queue Sink.capacity Sink.dropped].
  rewrite length_app, length_drop. cbn [length].
  destruct (Nat.ltb_spec (length sps - (length sps - cap)) cap) as [Hlt|Hge].
  - assert (length sps < cap) as Hroom by lia.
    replace (length sps - cap) with 0 by lia.
    replace (length sps + 1 - cap) with 0 by lia.
    by rewrite !drop_0.
  - assert (cap ≤ length sps) as Hfull by lia.
    replace (length sps + 1 - cap) with (S (length sps - cap)) by lia.
    f_equal. rewrite <- tail_drop. f_equal.
    rewrite drop_app_le by lia. done.
Qed.

(** The states of an execution, one more than its events. *)
Lemma sink_states_length es s : length (Sink.states es s) = S (length es).
Proof.
  revert s. induction es as [|e es IH]; intros s; [done|].
  cbn. by rewrite IH.
Qed.

Lemma sink_states_dropped_from es s j sj :
  Sink.states es s !! j = Some sj → Sink.dropped s ≤ Sink.dropped sj.
Proof.
  revert s j. induction es as [|e es IH]; intros s [|j] Hj; cbn in Hj.
  - by injection Hj as <-.
  - done.
  - by injection Hj as <-.
  - etrans; [apply (sink_step_dropped s e)|]. by eapply IH.
Qed.

(** The counter of dropped spans never decreases along an execution of
    enqueues and flushes. *)
Lemma sink_dropped_monotone es s i j si sj :
  i ≤ j →
  Sink.states es s !! i = Some si → Sink.states es s !! j = Some sj →
  Sink.dropped si ≤ Sink.dropped sj.
Proof.
  revert s i j. induction es as [|e es IH]; intros s i j Hle Hi Hj.
  - destruct i as [|i], j as [|j]; cbn in Hi, Hj; try done.
    injection Hi as <-. by injection Hj as <-.
  - destruct i as [|i].
    + cbn in Hi. injection Hi as <-.
      by apply (sink_states_dropped_from (e :: es) s j).
    + destruct j as [|j]; [lia|]. cbn in Hi, Hj.
      apply (IH (Sink.step s e) i j); [lia|done..].
Qed.

(** C8. When more spans are enqueued than the sink has capacity for, every
    enqueue is one step that completes, whatever the state of the queue; the
    sink ends up holding the latest [capacity] spans, the oldest ones having
    been dropped and counted; and from one state of the execution to any
    later one the counter of dropped spans does not decrease. *)
Theorem sink_overflow_drops_oldest (cap : nat)
    (sps : list Spans.SpanRecord) :
  cap < length sps →
  let es := Sink.Enqueue <$> sps in
  let s := Sink.run es (Sink.new_sink cap) in
  length (Sink.states es (Sink.new_sink cap)) = S (length sps) ∧
  Sink.queue s = drop (length sps - cap) sps ∧
  length (Sink.queue s) = cap ∧
  Sink.dropped s = length sps - cap ∧
  0 < Sink.dropped s ∧
  ∀ i j si sj,
    i ≤ j →
    Sink.states es (Sink.new_sink cap) !! i = Some si →
    Sink.states es (Sink.new_sink cap) !! j = Some sj →
    Sink.dropped si ≤ Sink.dropped sj.
Proof.
  intros Hover es s. unfold s, es. rewrite sink_enqueue_all. cbn.
  split_and!.
  - by rewrite sink_states_length, length_fmap.
  - done.
  - rewrite length_drop. lia.
  - done.
  - lia.
  - intros i j si sj. apply sink_dropped_monotone.
Qed.

Lemma sink_overflow_drops_oldest_witness :
  1 < length three_spans ∧
  Sink.queue (Sink.run (Sink.Enqueue <$> three_spans) (Sink.new_sink 1))
  = [closed_span "third" 13] ∧
  Sink.dropped (Sink.run (Sink.Enqueue <$> three_spans) (Sink.new_sink 1)) = 2.
Proof.
  assert (1 < length three_spans) as Hover by (cbn; lia).
  split; [exact Hover|].
  pose proof (sink_overflow_drops_oldest 1 three_spans Hover) as Hsink.
  cbv zeta in Hsink. destruct Hsink as (_ & Hq & _ & Hd & _).
  split; [exact Hq | exact Hd].
Defined.

(** * Further properties of the sources *)

(** ** The set-up of the telemetry *)

(** X1. When nothing fails, [InitProvider] replaces the meter provider, the
    propagators and the tracer provider, whatever they were: the propagators
    are trace context and baggage, both providers get the same resource
    (service name and [GO_ENV]) and the same endpoint, which is the value of
    [OTEL_EXPORTER_OTLP_ENDPOINT] when it is set, also to the empty string,
    and ["0.0.0.0:4317"] only when it is not set. The errors handled so far
    are kept, and the function returned is the shutdown function. *)
Theorem InitProvider_installs env sdk name g :
  resource_New_err sdk = None → otlpmetricgrpc_New_err sdk = None →
  otlptrace_New_err sdk = None →
  let endpoint := default "0.0.0.0:4317" (env !! "OTEL_EXPORTER_OTLP_ENDPOINT") in
  let res :=
    {| res_attributes :=
         [("service.name", name);
          ("environment", default "" (env !! "GO_ENV"))] |} in
  Telemetry.InitProvider env sdk name g
  = Returned (Telemetry.InitProvider_shutdown sdk)
      {| g_meterProvider :=
           Some {| mp_resource := res; mp_endpoint := endpoint;
                   mp_interval_seconds := 2 |};
         g_textMapPropagator := [TraceContext; Baggage];
         g_tracerProvider :=
           Some {| tp_sampler := Telemetry.getSampler env;
                   tp_resource := res; tp_endpoint := endpoint |};
         g_handled := g_handled g |}.
Proof.
  intros H1 H2 H3. unfold Telemetry.InitProvider, LookupEnv.
  rewrite H1, H2, H3.
  destruct (env !! "OTEL_EXPORTER_OTLP_ENDPOINT"); reflexivity.
Qed.

Lemma InitProvider_installs_witness :
  g_tracerProvider <$>
    (match Telemetry.InitProvider
             {[ "OTEL_EXPORTER_OTLP_ENDPOINT" := "" ]} sdk_all_ok
             "otel-example-server" initial_globals with
     | Returned _ g => Some g
     | _ => None
     end)
  = Some (Some {| tp_sampler := AlwaysSample;
                  tp_resource :=
                    {| res_attributes :=
                         [("service.name", "otel-example-server");
                          ("environment", "")] |};
                  tp_endpoint := "" |}).
Proof.
  rewrite (InitProvider_installs {[ "OTEL_EXPORTER_OTLP_ENDPOINT" := "" ]}
             sdk_all_ok "otel-example-server" initial_globals
             eq_refl eq_refl eq_refl).
  reflexivity.
Defined.

(** X2. [InitProvider] ends the process at the first step that fails, in the
    order resource, metric exporter, trace exporter, with the message of that
    step followed by the error; later failures are not reported. It returns
    when no step fails. *)
Theorem InitProvider_first_failure env sdk name g :
  match resource_New_err sdk with
  | Some e =>
      Telemetry.InitProvider env sdk name g
      = Exited ("failed to create resource: " +:+ e)
  | None =>
      match otlpmetricgrpc_New_err sdk with
      | Some e =>
          Telemetry.InitProvider env sdk name g
          = Exited ("Failed to create the collector metric exporter: " +:+ e)
      | None =>
          match otlptrace_New_err sdk with
          | Some e =>
              Telemetry.InitProvider env sdk name g
              = Exited
                  ("Failed to create the collector trace exporter: " +:+ e)
          | None => is_Returned (Telemetry.InitProvider env sdk name g)
          end
      end
  end.
Proof.
  unfold Telemetry.InitProvider.
  destruct (resource_New_err sdk); [reflexivity|].
  destruct (otlpmetricgrpc_New_err sdk); [reflexivity|].
  destruct (otlptrace_New_err sdk); [reflexivity|]. exact I.
Qed.

(** X3. When nothing fails, [InitProviderWithJaegerExporter] installs a
    tracer provider and nothing else: the propagators, the meter provider and
    the handled errors stay as they were, so no propagator is installed by
    it. The service name of its resource is [SERVICE_NAME] and its endpoint
    is [OPEN_TELEMETRY_COLLECTOR_URL], both empty when unset; the result is
    what the shutdown of the provider will give. *)
Theorem InitProviderWithJaegerExporter_installs env sdk g :
  jaeger_New_err sdk = None → resource_New_err sdk = None →
  Telemetry.InitProviderWithJaegerExporter env sdk g
  = Returned (tp_Shutdown_err sdk)
      {| g_meterProvider := g_meterProvider g;
         g_textMapPropagator := g_textMapPropagator g;
         g_tracerProvider :=
           Some {| tp_sampler := Telemetry.getSampler env;
                   tp_resource :=
                     {| res_attributes :=
                          [("service.name",
                            default "" (env !! "SERVICE_NAME"));
                           ("environment", default "" (env !! "GO_ENV"))] |};
                   tp_endpoint :=
                     default "" (env !! "OPEN_TELEMETRY_COLLECTOR_URL") |};
         g_handled := g_handled g |}.
Proof.
  intros H1 H2.
  unfold Telemetry.InitProviderWithJaegerExporter, Telemetry.exporterToJaeger,
    Telemetry.newResource.
  rewrite H1, H2. reflexivity.
Qed.

Lemma InitProviderWithJaegerExporter_installs_witness :
  g_textMapPropagator <$>
    (match Telemetry.InitProviderWithJaegerExporter env_production
             sdk_all_ok initial_globals with
     | Returned _ g => Some g
     | _ => None
     end)
  = Some [].
Proof.
  rewrite (InitProviderWithJaegerExporter_installs env_production sdk_all_ok
             initial_globals eq_refl eq_refl).
  reflexivity.
Defined.

(** X4. [InitProviderWithJaegerExporter] ends the process with
    ["error: <err>"] when the exporter cannot be constructed, whatever the
    resource would give, and with ["Failed to create resource: <err>"] when
    only the resource fails. *)
Theorem InitProviderWithJaegerExporter_first_failure env sdk g :
  match jaeger_New_err sdk with
  | Some e =>
      Telemetry.InitProviderWithJaegerExporter env sdk g
      = Exited ("error: " +:+ e)
  | None =>
      match resource_New_err sdk with
      | Some e =>
          Telemetry.InitProviderWithJaegerExporter env sdk g
          = Exited ("Failed to create resource: " +:+ e)
      | None =>
          is_Returned (Telemetry.InitProviderWithJaegerExporter env sdk g)
      end
  end.
Proof.
  unfold Telemetry.InitProviderWithJaegerExporter, Telemetry.exporterToJaeger,
    Telemetry.newResource.
  destruct (jaeger_New_err sdk); [reflexivity|].
  destruct (resource_New_err sdk); [reflexivity|]. exact I.
Qed.

Lemma getSampler_only_GO_ENV env1 env2 :
  Getenv env1 "GO_ENV" = Getenv env2 "GO_ENV" →
  Telemetry.getSampler env1 = Telemetry.getSampler env2.
Proof. unfold Telemetry.getSampler. by intros ->. Qed.

(** X5. A server and a client that are set up with the same [GO_ENV], in
    otherwise arbitrary environments, end up with the same sampler and the
    same propagators; the tracer provider that [initTracer] returns is the
    one it installed, and its error result is [nil]. *)
Theorem server_and_client_sample_alike env_s env_c sdk_s sdk_c name g_s g_c
    shutdown g_s' tp err g_c' :
  Getenv env_s "GO_ENV" = Getenv env_c "GO_ENV" →
  Telemetry.InitProvider env_s sdk_s name g_s = Returned shutdown g_s' →
  App2.initTracer env_c sdk_c g_c = Returned (tp, err) g_c' →
  tp_sampler <$> g_tracerProvider g_s' = Some (tp_sampler tp) ∧
  g_textMapPropagator g_s' = g_textMapPropagator g_c' ∧
  g_tracerProvider g_c' = Some tp ∧ err = None.
Proof.
  intros Henv Hs Hc.
  unfold Telemetry.InitProvider in Hs.
  destruct (resource_New_err sdk_s); [discriminate|].
  destruct (otlpmetricgrpc_New_err sdk_s); [discriminate|].
  destruct (otlptrace_New_err sdk_s); [discriminate|].
  injection Hs as _ <-.
  unfold App2.initTracer in Hc.
  destruct (otlptrace_New_err sdk_c); [discriminate|].
  injection Hc as <- <- <-. cbn.
  by rewrite (getSampler_only_GO_ENV env_s env_c Henv).
Qed.

Lemma server_and_client_sample_alike_witness :
  ∃ shutdown g_s' tp g_c',
    Telemetry.InitProvider env_production sdk_all_ok "otel-example-server"
      initial_globals = Returned shutdown g_s' ∧
    App2.initTracer (<["SERVICE_NAME" := "x"]> env_production)
      sdk_resource_down initial_globals = Returned (tp, None) g_c' ∧
    tp_sampler <$> g_tracerProvider g_s' = Some (tp_sampler tp) ∧
    g_textMapPropagator g_s' = g_textMapPropagator g_c'.
Proof.
  destruct (Telemetry.InitProvider env_production sdk_all_ok
              "otel-example-server" initial_globals)
    as [shutdown g_s'| |] eqn:Hs; [|vm_compute in Hs; discriminate..].
  destruct (App2.initTracer (<["SERVICE_NAME" := "x"]> env_production)
              sdk_resource_down initial_globals)
    as [[tp err] g_c'| |] eqn:Hc; [|vm_compute in Hc; discriminate..].
  assert (Getenv env_production "GO_ENV"
          = Getenv (<["SERVICE_NAME" := "x"]> env_production) "GO_ENV")
    as Henv by (vm_compute; reflexivity).
  destruct (server_and_client_sample_alike env_production
              (<["SERVICE_NAME" := "x"]> env_production) sdk_all_ok
              sdk_resource_down "otel-example-server" initial_globals
              initial_globals shutdown g_s' tp err g_c' Henv Hs Hc)
    as (Hsampler & Hprop & _ & ->).
  by exists shutdown, g_s', tp, g_c'.
Defined.

(** X6. A failed resource creation ends the server in [InitProvider], while
    the client's [initTracer] goes on and installs a tracer provider with the
    resource of the client's service name. *)
Theorem resource_failure_server_exits_client_goes_on env sdk name g e :
  resource_New_err sdk = Some e → otlptrace_New_err sdk = None →
  Telemetry.InitProvider env sdk name g
  = Exited ("failed to create resource: " +:+ e) ∧
  ∃ tp g',
    App2.initTracer env sdk g = Returned (tp, None) g' ∧
    g_tracerProvider g' = Some tp ∧
    res_attributes (tp_resource tp)
    = [("service.name", "otel-example-client");
       ("environment", default "" (env !! "GO_ENV"))].
Proof.
  intros Hres Htrace. split.
  - unfold Telemetry.InitProvider. by rewrite Hres.
  - unfold App2.initTracer. rewrite Htrace. by eexists _, _.
Qed.

Lemma resource_failure_server_exits_client_goes_on_witness :
  Telemetry.InitProvider ∅ sdk_resource_down "otel-example-server"
    initial_globals
  = Exited "failed to create resource: no host" ∧
  is_Returned (App2.initTracer ∅ sdk_resource_down initial_globals).
Proof.
  destruct (resource_failure_server_exits_client_goes_on ∅ sdk_resource_down
              "otel-example-server" initial_globals "no host" eq_refl eq_refl)
    as [Hserver (tp & g' & Hclient & _)].
  split; [exact Hserver|]. rewrite Hclient. exact I.
Defined.

(** ** The route and the router *)

Lemma strip_prefix_spec p s r :
  App1.strip_prefix p s = Some r ↔ s = p +:+ r.
Proof.
  revert s. induction p as [|a p IH]; intros s.
  - cbn. rewrite app_Empty. split; congruence.
  - destruct s as [|b s]; cbn.
    + rewrite app_String. split; discriminate.
    + rewrite app_String. destruct (Ascii.eqb_spec a b) as [->|Hne].
      * rewrite IH. split; [by intros ->|]. by intros [= ->].
      * split; [discriminate|]. intros [= ? ?]. congruence.
Qed.

Lemma is_digit_spec c :
  App1.is_digit c = true ↔
  c ∈ ["0"; "1"; "2"; "3"; "4"; "5"; "6"; "7"; "8"; "9"]%char.
Proof.
  split.
  - destruct c as [[] [] [] [] [] [] [] []]; vm_compute; intros Hd;
      try discriminate Hd; apply list_elem_of_In; cbn; tauto.
  - intros Hin. apply list_elem_of_In in Hin. cbn in Hin.
    repeat (destruct Hin as [<-|Hin]; [reflexivity|]). destruct Hin.
Qed.

(** The paths that the route matches. *)
Lemma route_packages_matches path id :
  App1.route_packages path = Some id ↔
  path = "/packages/" +:+ id ∧ id ≠ "" ∧
  ∀ c, c ∈ String.list_ascii_of_string id →
       c ∈ ["0"; "1"; "2"; "3"; "4"; "5"; "6"; "7"; "8"; "9"]%char.
Proof.
  assert (∀ s, App1.all_digits s = true ↔
               ∀ c, c ∈ String.list_ascii_of_string s → App1.is_digit c = true)
    as Hall.
  { induction s as [|a s IH]; cbn.
    - split; [|done]. intros _ c Hin. by apply elem_of_nil in Hin.
    - rewrite andb_true_iff, IH. split.
      + intros [Ha Hs] c [->|Hin]%elem_of_cons; auto.
      + intros Hc. split; [apply Hc; left|intros c Hin; apply Hc; by right]. }
  unfold App1.route_packages.
  destruct (App1.strip_prefix "/packages/" path) as [rest|] eqn:Hstrip.
  - apply strip_prefix_spec in Hstrip as ->.
    destruct (String.eqb_spec rest "") as [->|Hne]; cbn.
    + split; [discriminate|]. intros (Heq & Hid & _).
      apply (inj (String.app "/packages/")) in Heq. congruence.
    + destruct (App1.all_digits rest) eqn:Hd.
      * split.
        -- intros [= <-]. split_and!; [done..|].
           intros c Hin. apply is_digit_spec.
           exact (proj1 (Hall rest) Hd c Hin).
        -- intros (Heq & _). apply (inj (String.app "/packages/")) in Heq.
           by subst.
      * split; [discriminate|]. intros (Heq & _ & Hdigits).
        apply (inj (String.app "/packages/")) in Heq. subst id.
        assert (App1.all_digits rest = true) as Htrue; [|congruence].
        apply (proj2 (Hall rest)). intros c Hin.
        apply (proj2 (is_digit_spec c)). by apply Hdigits.
  - split; [discriminate|]. intros (Heq & _).
    apply strip_prefix_spec in Heq. congruence.
Qed.

(** X7. The route ["/packages/{id:[0-9]+}"] matches a path, with the
    variable [id], exactly when the path is ["/packages/"] followed by [id]
    and [id] is a non-empty string of decimal digits; so a path matches with
    at most one [id], and nothing may follow the digits. *)
Theorem route_packages_spec path id :
  App1.route_packages path = Some id ↔
  path = "/packages/" +:+ id ∧ id ≠ "" ∧
  ∀ c, c ∈ String.list_ascii_of_string id →
       c ∈ ["0"; "1"; "2"; "3"; "4"; "5"; "6"; "7"; "8"; "9"]%char.
Proof. apply route_packages_matches. Qed.

Lemma route_packages_spec_witness :
  App1.route_packages "/packages/0042" = Some "0042".
Proof.
  apply (route_packages_spec "/packages/0042" "0042").
  split_and!; [reflexivity|discriminate|].
  intros c Hin. apply list_elem_of_In in Hin. apply list_elem_of_In.
  cbn in Hin |- *. tauto.
Defined.

(** The response of the handler is a function of the [id] alone. *)
Lemma packagesHandler_response {T} `{Tracing T} (w : ResponseWriter)
    (r : Request) (t : T) :
  let id := default "" (req_vars r !! "id") in
  ∃ t', App1.packagesHandler w r t
        = Returned
            (Write (App1.Sprintf_reply
                      (if String.eqb id "123" then "found package"
                       else "unknown") id) w) t'.
Proof.
  intros id. destruct (getPackage_returns (req_ctx r) id t) as [t1 Hget].
  rewrite (packagesHandler_run w r t _ t1 Hget). by eexists.
Qed.

(** A path that the route matches is in canonical form. *)
Lemma digits_contains c0 (s : string) :
  c0 ∉ ["0"; "1"; "2"; "3"; "4"; "5"; "6"; "7"; "8"; "9"]%char →
  (∀ c, c ∈ String.list_ascii_of_string s →
        c ∈ ["0"; "1"; "2"; "3"; "4"; "5"; "6"; "7"; "8"; "9"]%char) →
  contains c0 s = false.
Proof.
  intros Hc0. induction s as [|a s IH]; intros Hd; [done|]. cbn.
  rewrite IH by (intros c Hin; apply Hd; by right).
  destruct (Ascii.eqb_spec a c0) as [->|_]; [|done].
  destruct Hc0. apply Hd. by left.
Qed.

Lemma ends_with_app c (x s : string) :
  s ≠ "" → App1.ends_with c (x +:+ s) = App1.ends_with c s.
Proof.
  intros Hs. induction x as [|a x IH]; [done|].
  rewrite app_String. cbn. rewrite IH.
  destruct (x +:+ s) eqn:Happ; [|done].
  destruct x; [|discriminate Happ]. rewrite app_Empty in Happ. done.
Qed.

Lemma ends_with_contains c (s : string) :
  contains c s = false → App1.ends_with c s = false.
Proof.
  induction s as [|a s IH]; [done|].
  intros [Ha Hs]%contains_cons. cbn. destruct s; [done|]. by apply IH.
Qed.

Lemma cleanPath_matched path id :
  App1.route_packages path = Some id → App1.cleanPath path = path.
Proof.
  intros (-> & Hne & Hdigits)%route_packages_matches.
  assert (contains "/" id = false) as Hslash.
  { apply digits_contains; [|done]. intros Hin.
    apply list_elem_of_In in Hin. cbn in Hin.
    repeat (destruct Hin as [Hin|Hin]; [discriminate Hin|]). destruct Hin. }
  assert (contains "." id = false) as Hdot.
  { apply digits_contains; [|done]. intros Hin.
    apply list_elem_of_In in Hin. cbn in Hin.
    repeat (destruct Hin as [Hin|Hin]; [discriminate Hin|]). destruct Hin. }
  assert (String.eqb id "" = false) as He by by apply String.eqb_neq.
  assert (String.eqb id "." = false) as Hd1.
  { apply String.eqb_neq. intros ->. discriminate Hdot. }
  assert (String.eqb id ".." = false) as Hd2.
  { apply String.eqb_neq. intros ->. discriminate Hdot. }
  change ("/packages/" +:+ id)
    with (String "/" ("packages" +:+ String "/" id)).
  unfold App1.cleanPath. cbn [Ascii.eqb Bool.eqb].
  assert (App1.path_Clean (String "/" ("packages" +:+ String "/" id))
          = String "/" ("packages" +:+ String "/" id)) as Hclean.
  { unfold App1.path_Clean.
    change (String "/" ("packages" +:+ String "/" id))
      with ("" +:+ String "/" ("packages" +:+ String "/" id)) at 1.
    rewrite (split_on_app "/" "") by reflexivity.
    rewrite (split_on_app "/" "packages") by reflexivity.
    rewrite (split_on_token "/" id Hslash).
    cbn [foldl]. unfold App1.clean_element at 3. cbn [String.eqb orb].
    unfold App1.clean_element at 2.
    replace (String.eqb "packages" "") with false by reflexivity.
    replace (String.eqb "packages" ".") with false by reflexivity.
    replace (String.eqb "packages" "..") with false by reflexivity.
    cbn [orb]. unfold App1.clean_element. rewrite He, Hd1, Hd2.
    reflexivity. }
  rewrite Hclean.
  change (String "/" ("packages" +:+ String "/" id))
    with ("/packages/" +:+ id) at 1.
  rewrite (ends_with_app "/" "/packages/" id Hne).
  by rewrite (ends_with_contains "/" id Hslash).
Qed.

(** The router runs the handler for the paths that the route matches, with
    the digits as [id]. *)
Lemma router_matched {T} `{Tracing T} (w : ResponseWriter)
    (method path id : string) (ctx : Context) (t : T) :
  App1.route_packages path = Some id →
  App1.router w method path ctx t
  = App1.packagesHandler w
      {| req_method := method; req_vars := {[ "id" := id ]}; req_ctx := ctx |}
      t.
Proof.
  intros Hroute. unfold App1.router.
  rewrite (cleanPath_matched path id Hroute), String.eqb_refl, Hroute.
  reflexivity.
Qed.



(** X9. Whatever the method, the context and the tracing implementation, the
    router answers a request with the single body
    ["package is found package (id 123)\n"] exactly for the path
    ["/packages/123"]; ids that differ from ["123"] as strings, such as
    ["0123"], are not found. *)
Theorem router_found_iff {T} `{Tracing T} (method path : string)
    (ctx : Context) (t : T) :
  ∃ w' t',
    App1.router new_response method path ctx t = Returned w' t' ∧
    (rw_writes w' = ["package is found package (id 123)" +:+ newline]
     ↔ path = "/packages/123").
Proof.
  destruct (App1.route_packages path) as [id|] eqn:Hroute.
  - rewrite (router_matched new_response method path id ctx t Hroute).
    destruct (packagesHandler_response new_response
                {| req_method := method; req_vars := {[ "id" := id ]};
                   req_ctx := ctx |} t) as [t' Hrun].
    cbn in Hrun. rewrite lookup_singleton_eq in Hrun. cbn in Hrun.
    eexists _, t'. split; [exact Hrun|].
    apply route_packages_matches in Hroute as (-> & _ & _).
    destruct (String.eqb_spec id "123") as [->|Hne].
    + split; reflexivity.
    + split.
      * intros Hw. vm_compute in Hw. discriminate Hw.
      * intros Hp. apply (inj (String.app "/packages/") id "123") in Hp.
        done.
  - unfold App1.router. rewrite Hroute.
    destruct (negb (String.eqb (App1.cleanPath path) path));
      (eexists _, t; split; [reflexivity|]; split;
       [intros Hw; vm_compute in Hw; discriminate Hw
       |intros ->; vm_compute in Hroute; discriminate Hroute]).
Qed.

(** ** The packages handler and the spans *)

(** X10. The response of the packages handler depends on the [id] of the
    route only: two requests with the same [id], served with different
    contexts, baggage and methods on different implementations and states of
    the tracing API, leave the same response on the same writer. *)
Theorem packagesHandler_response_ignores_tracing {T1 T2}
    `{Tracing T1} `{Tracing T2} (w : ResponseWriter) (r1 r2 : Request)
    (t1 : T1) (t2 : T2) :
  req_vars r1 !! "id" = req_vars r2 !! "id" →
  ∃ w' t1' t2',
    App1.packagesHandler w r1 t1 = Returned w' t1' ∧
    App1.packagesHandler w r2 t2 = Returned w' t2'.
Proof.
  intros Hid.
  destruct (packagesHandler_response w r1 t1) as [t1' Hr1].
  destruct (packagesHandler_response w r2 t2) as [t2' Hr2].
  rewrite Hid in Hr1. by eexists _, t1', t2'.
Qed.

Lemma packagesHandler_response_ignores_tracing_witness :
  ∃ w' t1' t2',
    App1.packagesHandler new_response request_123 initial_recorder
    = Returned w' t1' ∧
    App1.packagesHandler new_response
      {| req_method := "DELETE"; req_vars := {[ "id" := "123" ]};
         req_ctx := {| ctx_span := 7; ctx_baggage := ∅ |} |}
      recorder_after_middleware
    = Returned w' t2'.
Proof.
  apply (packagesHandler_response_ignores_tracing new_response request_123
           {| req_method := "DELETE"; req_vars := {[ "id" := "123" ]};
              req_ctx := {| ctx_span := 7; ctx_baggage := ∅ |} |}
           initial_recorder recorder_after_middleware).
  reflexivity.
Defined.

(** X11. Each run of the packages handler starts one span, the child
    ["getPackage"] of the span of the request, and ends that same span once,
    before it returns; the handle counter advances by one. On the span of
    the request it makes a single call, the event ["Obtaining package"],
    which comes last, after the child has been ended; it never ends the span
    of the request. *)
Theorem packagesHandler_span_discipline (w : ResponseWriter) (r : Request)
    (rec : Recorder) :
  ctx_span (req_ctx r) ≠ rec_next rec →
  ∃ w' rec' added,
    App1.packagesHandler w r rec = Returned w' rec' ∧
    rec_calls rec' = rec_calls rec ++ added ∧
    rec_next rec' = S (rec_next rec) ∧
    head added
    = Some (CallStart (ctx_span (req_ctx r)) "getPackage" [] (rec_next rec)) ∧
    started_spans added = [rec_next rec] ∧
    ended_spans added = [rec_next rec] ∧
    calls_on (ctx_span (req_ctx r)) added
    = [CallAddEvent (ctx_span (req_ctx r)) "Obtaining package"
         [("destination",
           default "" (ctx_baggage (req_ctx r) !! "destination"));
          ("transportation",
           default "" (ctx_baggage (req_ctx r) !! "transportation"))]] ∧
    last added = head (calls_on (ctx_span (req_ctx r)) added).
Proof.
  intros Hfresh. eexists _, _, _.
  split; [apply packagesHandler_recorded|]. cbn.
  split; [reflexivity|]. split; [reflexivity|]. split; [reflexivity|].
  assert (calls_on (ctx_span (req_ctx r))
            [CallStart (ctx_span (req_ctx r)) "getPackage" [] (rec_next rec);
             CallAddEvent (rec_next rec) "getPackage"
               [("package", default "" (req_vars r !! "id"))];
             if String.eqb (default "" (req_vars r !! "id")) "123"
             then CallAddEvent (rec_next rec) "found package" []
             else CallRecordError (rec_next rec) "package not found";
             CallEnd (rec_next rec);
             CallAddEvent (ctx_span (req_ctx r)) "Obtaining package"
               [("destination",
                 Member_Value (ctx_baggage (req_ctx r)) "destination");
                ("transportation",
                 Member_Value (ctx_baggage (req_ctx r)) "transportation")]]
          = [CallAddEvent (ctx_span (req_ctx r)) "Obtaining package"
               [("destination",
                 Member_Value (ctx_baggage (req_ctx r)) "destination");
                ("transportation",
                 Member_Value (ctx_baggage (req_ctx r)) "transportation")]])
    as Hon.
  { unfold calls_on.
    destruct (String.eqb (default "" (req_vars r !! "id")) "123");
      rewrite !filter_cons, filter_nil; cbn;
      repeat case_decide; congruence. }
  rewrite Hon.
  destruct (String.eqb (default "" (req_vars r !! "id")) "123"); done.
Qed.

Lemma packagesHandler_span_discipline_witness :
  ∃ w' rec' added,
    App1.packagesHandler new_response request_123 recorder_after_middleware
    = Returned w' rec' ∧
    rec_calls rec' = rec_calls recorder_after_middleware ++ added ∧
    started_spans added = [2] ∧ ended_spans added = [2] ∧
    calls_on 1 added
    = [CallAddEvent 1 "Obtaining package"
         [("destination", "newyork"); ("transportation", "truck")]].
Proof.
  assert (ctx_span (req_ctx request_123) ≠ rec_next recorder_after_middleware)
    as Hfresh by (cbn; discriminate).
  destruct (packagesHandler_span_discipline new_response request_123
              recorder_after_middleware Hfresh)
    as (w' & rec' & added & Hrun & Hcalls & _ & _ & Hs & He & Hon & _).
  exists w', rec', added. split_and!; [exact Hrun|exact Hcalls|exact Hs|exact He|].
  exact Hon.
Defined.

(** X12. Of the baggage, the packages handler uses the members
    ["destination"] and ["transportation"] and nothing else, a missing member
    counting as the empty string: two requests that agree on the [id], on the
    span and on the values of these two members make the same calls and
    leave the same response, whatever else their baggage holds. *)
Theorem packagesHandler_reads_two_members (w : ResponseWriter)
    (r1 r2 : Request) (rec : Recorder) :
  req_vars r1 !! "id" = req_vars r2 !! "id" →
  ctx_span (req_ctx r1) = ctx_span (req_ctx r2) →
  default "" (ctx_baggage (req_ctx r1) !! "destination")
  = default "" (ctx_baggage (req_ctx r2) !! "destination") →
  default "" (ctx_baggage (req_ctx r1) !! "transportation")
  = default "" (ctx_baggage (req_ctx r2) !! "transportation") →
  App1.packagesHandler w r1 rec = App1.packagesHandler w r2 rec.
Proof.
  intros Hid Hspan Hd Ht. rewrite !packagesHandler_recorded.
  unfold Member_Value. cbn. by rewrite Hid, Hspan, Hd, Ht.
Qed.

Lemma packagesHandler_reads_two_members_witness :
  App1.packagesHandler new_response
    {| req_method := "GET"; req_vars := {[ "id" := "5" ]};
       req_ctx := {| ctx_span := 1;
                     ctx_baggage := {[ "destination" := "" ]} |} |}
    recorder_after_middleware
  = App1.packagesHandler new_response
      {| req_method := "PUT"; req_vars := {[ "id" := "5" ]};
         req_ctx := {| ctx_span := 1;
                       ctx_baggage := {[ "priority" := "high" ]} |} |}
      recorder_after_middleware.
Proof.
  apply packagesHandler_reads_two_members; reflexivity.
Defined.

(** ** The client *)

(** X13. When nothing fails, the client's [main] returns, for every
    implementation of the tracing API, after it installed the propagators
    and its tracer provider, with the client's service name and the endpoint
    of [OTEL_EXPORTER_OTLP_ENDPOINT] or ["0.0.0.0:4317"], and printed exactly
    three texts, the first of which holds the body it read, unchanged. The
    meter provider and the handled errors are as before. *)
Theorem client_main_success {T} `{Tracing T} env sdk http bag
    (s : App2.State T) :
  otlptrace_New_err sdk = None → App2.client_Do_err http = None →
  App2.ReadAll_err http = None → tp_Shutdown_err sdk = None →
  ∃ tracing,
    App2.main env sdk http bag s
    = Returned tt
        {| App2.st_globals :=
             {| g_meterProvider := g_meterProvider (App2.st_globals s);
                g_textMapPropagator := [TraceContext; Baggage];
                g_tracerProvider :=
                  Some
                    {| tp_sampler := Telemetry.getSampler env;
                       tp_resource :=
                         {| res_attributes :=
                              [("service.name", "otel-example-client");
                               ("environment",
                                default "" (env !! "GO_ENV"))] |};
                       tp_endpoint :=
                         default "0.0.0.0:4317"
                           (env !! "OTEL_EXPORTER_OTLP_ENDPOINT") |};
                g_handled := g_handled (App2.st_globals s) |};
           App2.st_tracing := tracing;
           App2.st_stdout :=
             App2.st_stdout s ++
             ["Response Received: " +:+ App2.response_body http +:+ newline
                +:+ newline +:+ newline;
              "Waiting for few seconds to export spans ..." +:+ newline
                +:+ newline;
              "Inspect traces on jaeger" +:+ newline] |}.
Proof.
  intros H1 H2 H3 H4.
  unfold App2.main, App2.initTracer, App2.request, LookupEnv.
  rewrite H1, H2, H3, H4. destruct s as [g t out].
  unfold mbind, Proc_bind, App2.on_globals, App2.on_tracing, defer, modify,
    mret, Proc_ret, App2.Printf, Telemetry.handleErr. cbn.
  destruct (tracer_Start _ _ _ _) as [[ctx' span] t'] eqn:Hstart. cbn.
  eexists.
  destruct (env !! "OTEL_EXPORTER_OTLP_ENDPOINT"); cbn;
    by rewrite <- !app_assoc.
Qed.

Lemma client_main_success_witness :
  ∃ s, App2.main ∅ sdk_all_ok http_ok ∅ client_start = Returned tt s ∧
       App2.st_stdout s
       = ["Response Received: package is found package (id 123)" +:+ newline
            +:+ newline +:+ newline +:+ newline;
          "Waiting for few seconds to export spans ..." +:+ newline
            +:+ newline;
          "Inspect traces on jaeger" +:+ newline].
Proof.
  destruct (client_main_success ∅ sdk_all_ok http_ok ∅ client_start
              eq_refl eq_refl eq_refl eq_refl) as [tracing Hrun].
  eexists. split; [exact Hrun|]. reflexivity.
Defined.

(** X14. When [client.Do] fails, the client's [main] panics with that error,
    and the deferred [End] has run before: the span that was started is
    ended, the event ["Request received"] is not recorded and nothing is
    printed. If the shutdown of the tracer provider fails as well, the
    process exits with the message of the shutdown instead. *)
Theorem client_main_request_fails env sdk http bag (s : App2.State Recorder)
    e :
  otlptrace_New_err sdk = None → App2.client_Do_err http = Some e →
  match tp_Shutdown_err sdk with
  | Some e' =>
      App2.main env sdk http bag s
      = Exited ("Error shutting down tracer provider: " +:+ e')
  | None =>
      ∃ g,
        App2.main env sdk http bag s
        = Panicked e
            {| App2.st_globals := g;
               App2.st_tracing :=
                 {| rec_calls :=
                      rec_calls (App2.st_tracing s) ++
                      [CallStart noop_span
                         "Otel propagation example: sending package from boston"
                         [("peer.service", "otel-example-server")]
                         (rec_next (App2.st_tracing s));
                       CallAddEvent (rec_next (App2.st_tracing s))
                         "Sending request..." [];
                       CallEnd (rec_next (App2.st_tracing s))];
                    rec_next := S (rec_next (App2.st_tracing s)) |};
               App2.st_stdout := App2.st_stdout s |}
  end.
Proof.
  intros H1 H2. unfold App2.main, App2.initTracer, App2.request.
  rewrite H1, H2. destruct s as [g rec out].
  destruct (tp_Shutdown_err sdk);
    unfold mbind, Proc_bind, App2.on_globals, App2.on_tracing, defer, modify,
      panic, mret, Proc_ret, Telemetry.handleErr; cbn; [reflexivity|].
  eexists. unfold record. cbn. by rewrite <- !app_assoc.
Qed.

Lemma client_main_request_fails_witness :
  ∃ s, App2.main ∅ sdk_all_ok http_refused ∅ client_start
       = Panicked "connection refused" s ∧
       ended_spans (rec_calls (App2.st_tracing s)) = [1] ∧
       App2.st_stdout s = [].
Proof.
  destruct (client_main_request_fails ∅ sdk_all_ok http_refused ∅
              client_start "connection refused" eq_refl eq_refl)
    as [g Hrun].
  eexists. split; [exact Hrun|]. split; reflexivity.
Defined.

(** X15. Apart from a failing [client.Do], the client's [main] ends the
    process at the first of these failures, with its message: the
    construction of the trace exporter; the reading of the body, in which
    case the deferred shutdown of the tracer provider does not run and its
    error is not reported; the shutdown of the tracer provider, after the
    response has been printed. Without any of them it returns. *)
Theorem client_main_first_failure {T} `{Tracing T} env sdk http bag
    (s : App2.State T) :
  App2.client_Do_err http = None →
  match otlptrace_New_err sdk with
  | Some e =>
      App2.main env sdk http bag s
      = Exited ("Failed to create the collector trace exporter: " +:+ e)
  | None =>
      match App2.ReadAll_err http with
      | Some e =>
          App2.main env sdk http bag s
          = Exited ("Error executing handler request: " +:+ e)
      | None =>
          match tp_Shutdown_err sdk with
          | Some e =>
              App2.main env sdk http bag s
              = Exited ("Error shutting down tracer provider: " +:+ e)
          | None => is_Returned (App2.main env sdk http bag s)
          end
      end
  end.
Proof.
  intros Hdo. unfold App2.main, App2.initTracer, App2.request.
  rewrite Hdo.
  destruct (otlptrace_New_err sdk); [reflexivity|].
  destruct (App2.ReadAll_err http), (tp_Shutdown_err sdk); cbn;
    unfold mbind, Proc_bind, App2.on_globals, App2.on_tracing, defer, modify,
      mret, Proc_ret; cbn;
    destruct (tracer_Start _ _ _ _) as [[ctx' span] t']; cbn;
    reflexivity || exact I.
Qed.

Lemma client_main_first_failure_witness :
  App2.main ∅
    {| resource_New_err := None; otlpmetricgrpc_New_err := None;
       otlptrace_New_err := None; jaeger_New_err := None;
       traceExp_Shutdown_err := None; meterProvider_Shutdown_err := None;
       tp_Shutdown_err := Some "timeout" |}
    {| App2.client_Do_err := None; App2.response_body := "partial";
       App2.ReadAll_err := Some "unexpected EOF" |}
    ∅ client_start
  = Exited "Error executing handler request: unexpected EOF".
Proof.
  apply (client_main_first_failure ∅
           {| resource_New_err := None; otlpmetricgrpc_New_err := None;
              otlptrace_New_err := None; jaeger_New_err := None;
              traceExp_Shutdown_err := None;
              meterProvider_Shutdown_err := None;
              tp_Shutdown_err := Some "timeout" |}
           {| App2.client_Do_err := None; App2.response_body := "partial";
              App2.ReadAll_err := Some "unexpected EOF" |}
           ∅ client_start).
  reflexivity.
Defined.

(** ** The server's [main] *)


